(** * Penguins preprocessing pipeline: a shallow embedding

    The program under study is [preprocessing/automate_Rifky-Maulana.py]:
    a loader ([load_data]), a cleaning / encoding / scaling function
    ([preprocess_penguins_data]), a writer ([save_processed_data]) and an
    orchestrator ([main]).  The script is glue around pandas,
    scikit-learn and [os.path]; each library call is modelled by its
    documented behaviour and the script's own control flow is followed
    line by line.

    Numbers are idealised: a float64 cell carries a real number, so the
    statements about means and standard deviations are statements of
    exact arithmetic and say nothing about rounding. *)

From Stdlib Require Import Reals Lra Ascii String.
From stdpp Require Import gmap strings list sorting pretty.

Set Warnings "-clear-no-such-hyp".

(** ** Cells, rows and tables *)

(** One cell of a table.  [NA] is pandas' missing marker ([NaN] /
    [None]); [Str] is a Python [str] (its UTF-8 bytes, whose order is the
    code-point order Python compares by); [Int] is an int64 and [Flt] a
    float64 holding a number. *)
Inductive cell : Type :=
  | NA
  | Str (s : string)
  | Int (z : Z)
  | Flt (x : R).

Definition is_na (v : cell) : bool :=
  match v with NA => true | _ => false end.

(** A record maps column labels to cells; a label that is absent reads as
    missing, as it does when pandas builds a table from records. *)
Abbreviation row := (gmap string cell).

Definition cell_at (r : row) (c : string) : cell := default NA (r !! c).

(** [columns] is [df.columns] (labels in order, taken to be distinct as
    [read_csv] makes them) and [rows] the records in index order. *)
Record DataFrame : Type := mkDataFrame {
  columns : list string;
  rows : list row;
}.

Definition shape (df : DataFrame) : nat * nat :=
  (length (rows df), length (columns df)).

(** A pandas [Series] taken out of a table: the cells of one column. *)
Definition Series : Type := list cell.

(** ** Missing values (source lines 29-33) *)

(** [df.isnull().sum()]: per column, the number of missing cells. *)
Definition isnull_sum (df : DataFrame) : list nat :=
  map (λ c, length (filter (λ r, is_na (cell_at r c) = true) (rows df)))
      (columns df).

(** [df.isnull().sum().sum()]. *)
Definition isnull_sum_sum (df : DataFrame) : nat := sum_list (isnull_sum df).

(** A row is dropped by [dropna()] (defaults [axis=0], [how='any'])
    when at least one of its fields is missing. *)
Definition row_has_na (cols : list string) (r : row) : bool :=
  existsb (λ c, is_na (cell_at r c)) cols.

Definition dropna (df : DataFrame) : DataFrame :=
  {| columns := columns df;
     rows := filter (λ r, row_has_na (columns df) r = false) (rows df) |}.

(** The rows that [dropna] removes. *)
Definition rows_with_na (df : DataFrame) : list row :=
  filter (λ r, row_has_na (columns df) r = true) (rows df).

(** A table is clean when no field of any row is missing. *)
Definition clean (df : DataFrame) : Prop :=
  Forall (λ r, row_has_na (columns df) r = false) (rows df).

(** ** Exceptions *)

(** The Python exceptions the pipeline can meet.  [OSError] stands for
    the operating-system errors other than a missing file (a directory
    in place of a file, a refused permission) and [ParserError] for what
    pandas raises on content it cannot read. *)
Inductive exn : Type :=
  | FileNotFoundError (path : string)
  | OSError (msg : string)
  | ParserError (msg : string)
  | AttributeError (msg : string)
  | KeyError (label : string)
  | TypeError (msg : string)
  | ValueError (msg : string).

(** A computation that returns or raises. *)
Inductive result (A : Type) : Type :=
  | Ok (a : A)
  | Raise (e : exn).
Arguments Ok {A} a.
Arguments Raise {A} e.

#[global] Instance result_ret : MRet result := λ A a, Ok a.
#[global] Instance result_bind : MBind result := λ A B f m,
  match m with Ok a => f a | Raise e => Raise e end.

(** ** Column access *)

(** [df[c]]: the cells of column [c]; [KeyError] when there is no such
    column. *)
Definition getitem (df : DataFrame) (c : string) : result Series :=
  if decide (c ∈ columns df)
  then Ok (map (λ r, cell_at r c) (rows df))
  else Raise (KeyError c).

(** The labels after an assignment to column [c]: a label that is there
    keeps its place, a new one goes last. *)
Definition add_column (cols : list string) (c : string) : list string :=
  if decide (c ∈ cols) then cols else cols ++ [c].

(** [df[c] = vals] with [vals] an array: an existing column is
    overwritten where it stands, a new one is appended; an array of the
    wrong length is refused. *)
Definition setitem (df : DataFrame) (c : string) (vals : Series)
  : result DataFrame :=
  if decide (length vals = length (rows df))
  then Ok {| columns := add_column (columns df) c;
             rows := zip_with (λ r v, <[c:=v]> r) (rows df) vals |}
  else Raise (ValueError "Length of values does not match length of index").

(** [df[cs]] as a table of its own: the columns [cs], in that order;
    [KeyError] when one of them is absent. *)
Definition getitem_list (df : DataFrame) (cs : list string) : result DataFrame :=
  match list_find (λ c, c ∉ columns df) cs with
  | Some (_, c) => Raise (KeyError c)
  | None =>
      Ok {| columns := cs;
            rows := map (λ r, filter (λ kv, kv.1 ∈ cs) r) (rows df) |}
  end.

(** ** [sklearn.preprocessing.LabelEncoder] *)

(** What the encoder compares: a string or a number.  An int64 and a
    float64 of equal value are the same label. *)
Inductive key : Type :=
  | KStr (s : string)
  | KNum (x : R).

Definition cell_key (v : cell) : option key :=
  match v with
  | NA => None
  | Str s => Some (KStr s)
  | Int z => Some (KNum (IZR z))
  | Flt x => Some (KNum x)
  end.

Definition is_KStr (k : key) : bool :=
  match k with KStr _ => true | KNum _ => false end.

(** The order [sorted] and [np.unique] use: strings by code point,
    numbers by value.  Numbers are put before strings only to make the
    relation total; the encoder never compares the two. *)
Definition key_le (a b : key) : Prop :=
  match a, b with
  | KStr s, KStr t => String.le s t
  | KNum x, KNum y => (x <= y)%R
  | KNum _, KStr _ => True
  | KStr _, KNum _ => False
  end.


#[global] Instance key_eq_dec : EqDecision key.
Proof.
  intros [s|x] [t|y].
  - destruct (decide (s = t)) as [->|Hne]; [by left|right; congruence].
  - right; congruence.
  - right; congruence.
  - destruct (Req_dec_T x y) as [->|Hne]; [by left|right; congruence].
Defined.

#[global] Instance key_le_dec : RelDecision key_le.
Proof.
  intros [s|x] [t|y]; simpl.
  - apply _.
  - right; tauto.
  - left; exact I.
  - apply Rle_dec.
Defined.

Module LabelEncoder.

(** [fit]: [classes_] holds the distinct labels in ascending order. *)
Definition classes_ (ks : list key) : list key :=
  merge_sort key_le (remove_dups ks).

(** [transform] of one label: its position in [classes_]. *)
Definition code (classes : list key) (k : key) : option nat :=
  fst <$> list_find (λ k', k' = k) classes.

(** The labels of a column.  Missing cells do not reach the encoder
    (the rows holding one were dropped before) and are refused here; a
    column mixing strings and numbers is refused as scikit-learn
    does. *)
Definition labels (y : Series) : result (list key) :=
  match mapM cell_key y with
  | None => Raise (ValueError "Input contains NaN")
  | Some ks =>
      if forallb is_KStr ks || forallb (λ k, negb (is_KStr k)) ks
      then Ok ks
      else Raise (TypeError
        "Encoders require their input argument must be uniformly strings or numbers.")
  end.

(** [LabelEncoder().fit_transform(y)]: one integer code per cell. *)
Definition fit_transform (y : Series) : result (list nat) :=
  ks ← labels y;
  match mapM (code (classes_ ks)) ks with
  | Some codes => Ok codes
  | None => Raise (ValueError "y contains previously unseen labels")
  end.

End LabelEncoder.

(** The codes as cells of an int64 column. *)
Definition int_column (codes : list nat) : Series :=
  map (λ n, Int (Z.of_nat n)) codes.

(** ** The encoding step (source lines 37-42) *)

Definition encode_column (src dst : string) (df : DataFrame)
  : result DataFrame :=
  y ← getitem df src;
  codes ← LabelEncoder.fit_transform y;
  setitem df dst (int_column codes).

Definition encode_step (df : DataFrame) : result DataFrame :=
  df ← encode_column "species" "species_encoded" df;
  df ← encode_column "island" "island_encoded" df;
  encode_column "sex" "sex_encoded" df.

(** ** [sklearn.preprocessing.StandardScaler] *)

(** The number a cell converts to when scikit-learn turns the table into
    a float array.  A string cannot be converted; missing cells do not
    reach the scaler (their rows were dropped) and are refused here. *)
Definition cell_num (v : cell) : option R :=
  match v with
  | NA => None
  | Str _ => None
  | Int z => Some (IZR z)
  | Flt x => Some x
  end.

Definition sum_R (xs : list R) : R := foldr Rplus 0%R xs.

Module StandardScaler.

(** [mean_]: the mean of a feature over the rows it is fitted on. *)
Definition mean_ (xs : list R) : R := (sum_R xs / INR (length xs))%R.

(** [var_]: the population variance (divisor [n], not [n - 1]). *)
Definition var_ (xs : list R) : R :=
  mean_ (map (λ x, (x - mean_ xs) * (x - mean_ xs))%R xs).

(** [_handle_zeros_in_scale]: a feature of zero standard deviation is
    given the scale 1, so that it is never divided by zero
    (scikit-learn's documentation of [scale_]: if a variance is zero,
    unit variance cannot be achieved and the data is left as it is,
    giving a scaling factor of 1). *)
Definition handle_zeros_in_scale (s : R) : R :=
  if Req_dec_T s 0 then 1%R else s.

(** [scale_]: the divisor of [transform]. *)
Definition scale_ (xs : list R) : R := handle_zeros_in_scale (sqrt (var_ xs)).

(** [transform] of one feature: [(x - mean_) / scale_]. *)
Definition transform (xs : list R) : list R :=
  map (λ x, (x - mean_ xs) / scale_ xs)%R xs.

(** [StandardScaler().fit_transform(X)], [X] given by its features
    (columns).  An array without rows is refused. *)
Definition fit_transform (X : list (list R)) : result (list (list R)) :=
  if forallb (λ xs, bool_decide (xs ≠ [])) X
  then Ok (map transform X)
  else Raise (ValueError
    "Found array with 0 sample(s) while a minimum of 1 is required by StandardScaler.").

End StandardScaler.

(** The numbers of a column, when all its cells hold one. *)
Definition numeric_column (df : DataFrame) (c : string) : result (list R) :=
  y ← getitem df c;
  match mapM cell_num y with
  | Some xs => Ok xs
  | None => Raise (ValueError "could not convert string to float")
  end.

Definition float_column (xs : list R) : Series := map Flt xs.

(** [df[cs]] read as a float array: one list of numbers per label. *)
Fixpoint numeric_columns (df : DataFrame) (cs : list string)
  : result (list (list R)) :=
  match cs with
  | [] => Ok []
  | c :: cs' =>
      xs ← numeric_column df c;
      X ← numeric_columns df cs';
      Ok (xs :: X)
  end.

(** [df[cs] = X]: the features of the array [X] are stored under the
    labels [cs], in order. *)
Fixpoint setitem_list (df : DataFrame) (cs : list string) (X : list (list R))
  : result DataFrame :=
  match cs, X with
  | c :: cs', xs :: X' =>
      df' ← setitem df c (float_column xs);
      setitem_list df' cs' X'
  | [], [] => Ok df
  | _, _ => Raise (ValueError "Columns must be same length as key")
  end.

(** ** The scaling step (source lines 45-47) *)

Definition numerical_features : list string :=
  ["bill_length_mm"; "bill_depth_mm"; "flipper_length_mm"; "body_mass_g"].

(** The float array scikit-learn makes of a table: its columns, as
    numbers. *)
Definition to_float_array (X : DataFrame) : result (list (list R)) :=
  numeric_columns X (columns X).

Definition scale_step (df : DataFrame) : result DataFrame :=
  X ← getitem_list df numerical_features;
  A ← to_float_array X;
  Z ← StandardScaler.fit_transform A;
  setitem_list df numerical_features Z.

(** ** Feature selection (source lines 50-52) *)

Definition feature_columns : list string :=
  numerical_features ++ ["island_encoded"; "sex_encoded"].

(** The table the function hands back, as a function of the table it is
    given: drop, encode, scale. *)
Definition processed_table (df : DataFrame) : result DataFrame :=
  df ← encode_step (dropna df);
  scale_step df.

(** ** The interpreter state: objects, files, console *)

(** A table object lives at an address; two variables bound to the same
    address see each other's in-place updates. *)
Definition loc : Type := positive.

(** What a path leads to. *)
Inductive node : Type :=
  | File (content : string)
  | Dir.

(** What the script prints, one constructor per [print] of the source;
    the arguments are the values the message is formatted from. *)
Inductive line : Type :=
  | DataLoaded (sh : nat * nat)
  | FileNotFoundLine (path : string)
  | ErrorLoading (e : exn)
  | MissingBefore (n : nat)
  | MissingAfter (n : nat)
  | FinalShape (sh : nat * nat)
  | FeatureMatrixShape (sh : nat * nat)
  | TargetDistribution (y : Series)
  | SavedTo (path : string)
  | ErrorSaving (e : exn)
  | RawDataNotFound
  | Starting
  | LoadingRawData
  | Preprocessing
  | Saving
  | Completed
  | AvailableAt (path : string)
  | FeaturesShape (sh : nat * nat)
  | TargetShape (n : nat).

Record world : Type := mkWorld {
  heap : gmap loc DataFrame;
  fs : gmap string node;
  stdout : list line;
}.

Definition set_heap (h : gmap loc DataFrame) (w : world) : world :=
  {| heap := h; fs := fs w; stdout := stdout w |}.
Definition set_fs (f : gmap string node) (w : world) : world :=
  {| heap := heap w; fs := f; stdout := stdout w |}.
Definition set_stdout (o : list line) (w : world) : world :=
  {| heap := heap w; fs := fs w; stdout := o |}.

(** A statement: it runs in a world, returns or raises, and leaves a
    world behind either way. *)
Definition M (A : Type) : Type := world → result A * world.

#[global] Instance M_ret : MRet M := λ A a w, (Ok a, w).
#[global] Instance M_bind : MBind M := λ A B f m w,
  match m w with
  | (Ok a, w') => f a w'
  | (Raise e, w') => (Raise e, w')
  end.

Definition raise {A} (e : exn) : M A := λ w, (Raise e, w).

Definition lift {A} (r : result A) : M A := λ w, (r, w).

(** [try: body / except Exception as e: handler e]. *)
Definition try_except {A} (body : M A) (handler : exn → M A) : M A := λ w,
  match body w with
  | (Ok a, w') => (Ok a, w')
  | (Raise e, w') => handler e w'
  end.

Definition print (l : line) : M unit := λ w,
  (Ok (), set_stdout (stdout w ++ [l]) w).

(** A new object, at an address not in use. *)
Definition new (df : DataFrame) : M loc := λ w,
  let l := fresh (dom (heap w)) in (Ok l, set_heap (<[l:=df]> (heap w)) w).

(** The table a variable refers to; a variable that holds no table (the
    [None] of a failed load, say) has none of its attributes. *)
Definition deref (l : loc) : M DataFrame := λ w,
  match heap w !! l with
  | Some df => (Ok df, w)
  | None => (Raise (AttributeError "'NoneType' object has no attribute"), w)
  end.

(** A method that reads the object. *)
Definition read {A} (l : loc) (f : DataFrame → A) : M A :=
  df ← deref l; mret (f df).

Definition read_result {A} (l : loc) (f : DataFrame → result A) : M A :=
  df ← deref l; lift (f df).

(** A method that returns a new table and leaves the object alone:
    [df.copy()], [df.dropna()], [df[cs]]. *)
Definition derive (l : loc) (f : DataFrame → result DataFrame) : M loc :=
  df ← deref l; df' ← lift (f df); new df'.

(** A statement that changes the object where it is: [df[c] = ...]. *)
Definition store (l : loc) (df : DataFrame) : M unit := λ w,
  (Ok (), set_heap (<[l:=df]> (heap w)) w).

Definition update (l : loc) (f : DataFrame → result DataFrame) : M unit :=
  df ← deref l; df' ← lift (f df); store l df'.

(** ** [preprocess_penguins_data] (source lines 21-58) *)

Definition preprocess_penguins_data (df : loc) : M (loc * Series * loc) :=
  (* 1. Copy data *)
  df_processed ← derive df Ok;
  (* 2. Handle missing values *)
  before ← read df_processed isnull_sum_sum;
  print (MissingBefore before);;
  df_processed ← derive df_processed (λ d, Ok (dropna d));
  after ← read df_processed isnull_sum_sum;
  print (MissingAfter after);;
  (* 3. Encode categorical variables *)
  update df_processed (encode_column "species" "species_encoded");;
  update df_processed (encode_column "island" "island_encoded");;
  update df_processed (encode_column "sex" "sex_encoded");;
  (* 4. Feature scaling for numerical features *)
  update df_processed scale_step;;
  (* 5. Select final features *)
  X ← derive df_processed (λ d, getitem_list d feature_columns);
  y ← read_result df_processed (λ d, getitem d "species_encoded");
  sh ← read df_processed shape;
  print (FinalShape sh);;
  shX ← read X shape;
  print (FeatureMatrixShape shX);;
  print (TargetDistribution y);;
  mret (X, y, df_processed).

(** ** Files *)

Definition os_path_exists (path : string) : M bool := λ w,
  (Ok (bool_decide (is_Some (fs w !! path))), w).

(** Opening [path] for writing and putting [content] there: the file is
    created or replaced; a directory cannot be opened. *)
Definition write_file (path content : string) : M unit := λ w,
  match fs w !! path with
  | Some Dir => (Raise (OSError "Is a directory"), w)
  | _ => (Ok (), set_fs (<[path := File content]> (fs w)) w)
  end.

(** What pandas makes of the text of a file. *)
Inductive parsed : Type :=
  | Parsed (df : DataFrame)
  | Malformed (msg : string).

Section Pipeline.

(** pandas' reader and writer of delimited text are not part of the
    repository; the script is followed for any reader and writer. *)
Variable parse_csv : string → parsed.
Variable to_csv : DataFrame → string.

(** [pd.read_csv(path)]. *)
Definition read_csv (path : string) : M loc := λ w,
  match fs w !! path with
  | None => (Raise (FileNotFoundError path), w)
  | Some Dir => (Raise (OSError "Is a directory"), w)
  | Some (File content) =>
      match parse_csv content with
      | Parsed df => new df w
      | Malformed msg => (Raise (ParserError msg), w)
      end
  end.

(** [df.to_csv(path, index=False)]. *)
Definition df_to_csv (l : loc) (path : string) : M unit :=
  df ← deref l; write_file path (to_csv df).

(** [load_data] (source lines 6-19). *)
Definition load_data (file_path : string) : M (option loc) :=
  try_except
    (df ← read_csv file_path;
     sh ← read df shape;
     print (DataLoaded sh);;
     mret (Some df))
    (λ e, match e with
          | FileNotFoundError _ =>
              print (FileNotFoundLine file_path);; mret None
          | _ =>
              print (ErrorLoading e);; mret None
          end).

(** [save_processed_data] (source lines 60-70). *)
Definition save_processed_data (df_processed : loc) (output_path : string)
  : M bool :=
  try_except
    (df_to_csv df_processed output_path;;
     print (SavedTo output_path);;
     mret true)
    (λ e, print (ErrorSaving e);; mret false).

(** ** [main] (source lines 72-117) *)

Definition raw_data_path : string := "../penguins_raw.csv".
Definition processed_data_path : string := "penguins_processed.csv".
Definition alternative_paths : list string :=
  ["penguins.csv"; "../penguins.csv"; "penguins_raw.csv"].

(** The [for ... else] of lines 89-95: the first path that exists, or
    none when the loop runs to its end. *)
Fixpoint first_existing (paths : list string) : M (option string) :=
  match paths with
  | [] => mret None
  | path :: rest =>
      os_path_exists path ≫= λ found : bool,
      if found then mret (Some path) else first_existing rest
  end.

(** Lines 77-95: the path the run reads from. *)
Definition resolve_raw_data_path : M (option string) :=
  os_path_exists raw_data_path ≫= λ found : bool,
  if negb found then first_existing alternative_paths
  else mret (Some raw_data_path).

(** Lines 97-117: the stages, once the path is settled. *)
Definition run_pipeline (raw_data_path : string) : M unit :=
  print Starting;;
  print LoadingRawData;;
  df_raw ← load_data raw_data_path;
  match df_raw with
  | None => mret ()
  | Some df_raw =>
      print Preprocessing;;
      '(X, y, df_processed) ← preprocess_penguins_data df_raw;
      print Saving;;
      save_processed_data df_processed processed_data_path;;
      print Completed;;
      print (AvailableAt processed_data_path);;
      shX ← read X shape;
      print (FeaturesShape shX);;
      print (TargetShape (length y))
  end.

Definition main : M unit :=
  resolved ← resolve_raw_data_path;
  match resolved with
  | None => print RawDataNotFound
  | Some path => run_pipeline path
  end.

End Pipeline.

(** ** The input format *)

(** The categorical columns and the column each is encoded into. *)
Definition categorical_columns : list string := ["species"; "island"; "sex"].

Definition encodings : list (string * string) :=
  [("species", "species_encoded");
   ("island", "island_encoded");
   ("sex", "sex_encoded")].

Definition encoded_columns : list string := encodings.*2.

(** A cell of a column of strings: a string, or missing. *)
Definition is_string_cell (v : cell) : bool :=
  match v with NA | Str _ => true | Int _ | Flt _ => false end.

(** A cell of a column of numbers: a number, or missing. *)
Definition is_number_cell (v : cell) : bool :=
  match v with NA | Int _ | Flt _ => true | Str _ => false end.

(** Column [c] is there and holds strings, where it holds anything. *)
Definition string_typed (df : DataFrame) (c : string) : Prop :=
  c ∈ columns df
  ∧ Forall (λ r, is_string_cell (cell_at r c) = true) (rows df).

(** Column [c] is there and holds numbers, where it holds anything. *)
Definition numeric_typed (df : DataFrame) (c : string) : Prop :=
  c ∈ columns df
  ∧ Forall (λ r, is_number_cell (cell_at r c) = true) (rows df).

#[global] Instance clean_dec df : Decision (clean df).
Proof. unfold clean. apply _. Defined.
#[global] Instance string_typed_dec df c : Decision (string_typed df c).
Proof. unfold string_typed. apply _. Defined.
#[global] Instance numeric_typed_dec df c : Decision (numeric_typed df c).
Proof. unfold numeric_typed. apply _. Defined.

(** ** Delimited text, as pandas writes and reads it *)

(** [to_csv] and [read_csv] with their default options: comma as
    delimiter, the double quote as quote character, quotes doubled
    inside a quoted field, a line feed after every record, blank lines
    skipped on reading, the first record taken as header.  Text is a
    list of characters here; it is a [string] in a file. *)
Module Csv.

Abbreviation text := (list ascii).

Definition comma : ascii := ","%char.
Definition quote : ascii := "034"%char.
Definition lf : ascii := "010"%char.
Definition cr : ascii := "013"%char.

(** *** Writing (Python's [csv.writer], [QUOTE_MINIMAL]) *)

(** The characters that force a field into quotes. *)
Definition special (a : ascii) : bool :=
  bool_decide (a = comma ∨ a = quote ∨ a = lf ∨ a = cr).

Fixpoint escape (s : text) : text :=
  match s with
  | [] => []
  | a :: s' =>
      if bool_decide (a = quote) then quote :: quote :: escape s'
      else a :: escape s'
  end.

Definition write_field (s : text) : text :=
  if existsb special s then quote :: escape s ++ [quote] else s.

Fixpoint join (fields : list text) : text :=
  match fields with
  | [] => []
  | [f] => f
  | f :: fs => f ++ comma :: join fs
  end.

(** One record and its line feed.  A record that is a single empty
    field is written as a pair of quotes. *)
Definition write_row (fields : list text) : text :=
  match fields with
  | [ [] ] => [quote; quote; lf]
  | _ => join (map write_field fields) ++ [lf]
  end.

Definition write (records : list (list text)) : text :=
  concat (map write_row records).

(** The text of a cell: nothing for a missing value ([na_rep='']), the
    string itself, the decimal numeral of an integer, and for a float
    whatever Python prints for it. *)
Definition render (float_repr : R → string) (v : cell) : text :=
  match v with
  | NA => []
  | Str s => list_ascii_of_string s
  | Int z => list_ascii_of_string (pretty z)
  | Flt x => list_ascii_of_string (float_repr x)
  end.

(** [df.to_csv(index=False)]: the labels, then one record per row. *)
Definition to_csv (float_repr : R → string) (df : DataFrame) : string :=
  string_of_list_ascii
    (write (map list_ascii_of_string (columns df)
            :: map (λ r, map (λ c, render float_repr (cell_at r c)) (columns df))
                   (rows df))).

(** *** Reading (the tokenizer of pandas' C parser) *)














(** *** From records to a table *)






End Csv.

(** ** Sample tables *)

(** The seven columns of the input format (spec, External Interfaces). *)
Definition penguin_columns : list string :=
  ["species"; "island"; "bill_length_mm"; "bill_depth_mm";
   "flipper_length_mm"; "body_mass_g"; "sex"].

Definition penguin (species island bill_length bill_depth flipper body_mass sex
                    : cell) : row :=
  list_to_map
    [("species", species); ("island", island);
     ("bill_length_mm", bill_length); ("bill_depth_mm", bill_depth);
     ("flipper_length_mm", flipper); ("body_mass_g", body_mass);
     ("sex", sex)].

(** Four records, one of them with missing fields. *)
Definition sample_raw : DataFrame :=
  {| columns := penguin_columns;
     rows :=
       [ penguin (Str "Gentoo") (Str "Biscoe")
                 (Flt 46) (Flt 14) (Int 217) (Int 5000) (Str "male");
         penguin (Str "Adelie") (Str "Torgersen")
                 NA NA NA NA NA;
         penguin (Str "Adelie") (Str "Dream")
                 (Flt 38) (Flt 18) (Int 185) (Int 3400) (Str "female");
         penguin (Str "Chinstrap") (Str "Dream")
                 (Flt 42) (Flt 16) (Int 201) (Int 4200) (Str "male") ] |}.

(** The same without the incomplete record. *)
Definition sample_clean : DataFrame := dropna sample_raw.


(** [sample_raw] with a column that already bears the name of an
    encoded column. *)
Definition sample_tagged : DataFrame :=
  {| columns := penguin_columns ++ ["species_encoded"];
     rows := map (λ r, <["species_encoded" := Str "unknown"]> r)
                 (rows sample_raw) |}.


(** A world whose primary path leads to a directory. *)
Definition world_with_directory : world :=
  {| heap := ∅; fs := {[ "../penguins_raw.csv" := Dir ]}; stdout := [] |}.

(** A world without files. *)
Definition empty_world : world := {| heap := ∅; fs := ∅; stdout := [] |}.

(** A world with one table in it and nothing else. *)
Definition world_of (df : DataFrame) : world :=
  {| heap := {[1%positive := df]}; fs := ∅; stdout := [] |}.

(** A world whose primary path leads to a file. *)
Definition world_with_raw_file : world :=
  {| heap := ∅; fs := {[ "../penguins_raw.csv" := File "raw" ]}; stdout := [] |}.

(** The same, with a directory where the output is to go. *)
Definition world_with_output_directory : world :=
  {| heap := ∅;
     fs := {[ "../penguins_raw.csv" := File "raw";
              "penguins_processed.csv" := Dir ]};
     stdout := [] |}.

(** A table without a complete record. *)
Definition sample_incomplete : DataFrame :=
  {| columns := penguin_columns;
     rows :=
       [ penguin (Str "Adelie") (Str "Torgersen")
                 NA NA NA NA NA;
         penguin (Str "Gentoo") (Str "Biscoe")
                 (Flt 46) (Flt 14) (Int 217) (Int 5000) NA ] |}.

(** A table without the species. *)
Definition sample_anonymous : DataFrame :=
  {| columns := ["island"; "bill_length_mm"; "bill_depth_mm";
                 "flipper_length_mm"; "body_mass_g"; "sex"];
     rows := map (delete "species") (rows sample_raw) |}.

(** ** Properties of the clean step *)

Section Dropna.

Lemma length_filter_split {A} (p : A → bool) (l : list A) :
  length l =
  length (filter (λ x, p x = false) l) + length (filter (λ x, p x = true) l).
Proof.
  induction l as [|x l IH]; [done|].
  rewrite !filter_cons.
  destruct (p x) eqn:Hp; repeat case_decide; simpl; try congruence; lia.
Qed.

Lemma dropna_clean df : clean (dropna df).
Proof.
  unfold clean, dropna; simpl. apply Forall_forall.
  intros r Hr. by apply list_elem_of_filter in Hr as [? _].
Qed.

Lemma row_has_na_false cols r c :
  row_has_na cols r = false → c ∈ cols → is_na (cell_at r c) = false.
Proof.
  unfold row_has_na. intros H Hc.
  destruct (is_na (cell_at r c)) eqn:E; [|done].
  assert (existsb (λ c, is_na (cell_at r c)) cols = true) as Hx; [|congruence].
  apply existsb_exists. exists c. split; [by apply list_elem_of_In|done].
Qed.

Lemma sum_list_zero (l : list nat) : Forall (λ n, n = 0) l → sum_list l = 0.
Proof. induction 1; simpl; lia. Qed.

Lemma sum_list_zero_inv (l : list nat) : sum_list l = 0 → Forall (λ n, n = 0) l.
Proof.
  induction l as [|n l IH]; simpl; intros H; constructor; [lia|].
  apply IH. lia.
Qed.

Lemma clean_isnull df : clean df → isnull_sum_sum df = 0.
Proof.
  intros Hc. unfold isnull_sum_sum, isnull_sum.
  apply sum_list_zero, Forall_forall. intros n Hn.
  apply list_elem_of_fmap in Hn as (c & -> & Hc').
  apply length_zero_iff_nil. unfold clean in Hc.
  induction Hc as [|r rs Hr _ IH]; [done|].
  rewrite filter_cons, (row_has_na_false _ _ _ Hr Hc').
  by case_decide.
Qed.

Lemma isnull_clean df : isnull_sum_sum df = 0 → clean df.
Proof.
  intros H0. apply sum_list_zero_inv in H0.
  unfold clean. apply Forall_forall. intros r Hr.
  destruct (row_has_na (columns df) r) eqn:E; [|done].
  apply existsb_exists in E as (c & Hc & Hna).
  apply list_elem_of_In in Hc.
  rewrite Forall_forall in H0.
  assert (length (filter (λ r, is_na (cell_at r c) = true) (rows df)) = 0) as Hl.
  { apply H0. unfold isnull_sum. apply list_elem_of_fmap. eauto. }
  apply length_zero_iff_nil in Hl.
  assert (r ∈ filter (λ r, is_na (cell_at r c) = true) (rows df)) as Hin.
  { apply list_elem_of_filter. done. }
  rewrite Hl in Hin. by apply elem_of_nil in Hin.
Qed.

Lemma dropna_of_clean df : clean df → dropna df = df.
Proof.
  intros Hc. destruct df as [cols rs]. unfold dropna, clean in *; simpl in *.
  f_equal. induction Hc as [|r rs Hr Hrs IH]; [done|].
  rewrite filter_cons. case_decide; [|done]. by rewrite IH.
Qed.

End Dropna.

(** C1: the clean step drops exactly the rows that contain a missing
    field: the number of rows after [dropna] is the number before minus
    the number of rows with at least one missing field; a table whose
    missing-value count is zero keeps its row count; and the
    missing-value count reported after the drop is zero. *)
Theorem C1_dropna_row_count (df : DataFrame) :
  length (rows (dropna df)) = length (rows df) - length (rows_with_na df)
  ∧ (isnull_sum_sum df = 0 → length (rows (dropna df)) = length (rows df))
  ∧ isnull_sum_sum (dropna df) = 0.
Proof.
  split; [|split].
  - unfold dropna, rows_with_na; simpl.
    pose proof (length_filter_split (row_has_na (columns df)) (rows df)). lia.
  - intros H0. by rewrite dropna_of_clean; [|apply isnull_clean].
  - apply clean_isnull, dropna_clean.
Qed.

(** ** The order on labels *)

Section KeyOrder.

#[global] Instance key_le_trans : Transitive key_le.
Proof.
  intros [s|x] [t|y] [u|z]; simpl; try tauto.
  - apply (transitivity (R:=String.le)).
  - apply Rle_trans.
Qed.

#[global] Instance key_le_total : Total key_le.
Proof.
  intros [s|x] [t|y]; simpl; auto.
  - apply (total String.le).
  - destruct (Rle_or_lt x y); [by left|right; lra].
Qed.

#[global] Instance key_le_antisymm : AntiSymm eq key_le.
Proof.
  intros [s|x] [t|y]; simpl; try tauto.
  - intros H1 H2. f_equal. by apply (anti_symm String.le).
  - intros H1 H2. f_equal. by apply Rle_antisym.
Qed.



End KeyOrder.

(** ** The label encoder *)

Section Encoder.

Import LabelEncoder.


Lemma classes_perm ks : classes_ ks ≡ₚ remove_dups ks.
Proof. apply merge_sort_Permutation. Qed.

Lemma classes_NoDup ks : NoDup (classes_ ks).
Proof. rewrite classes_perm. apply NoDup_remove_dups. Qed.

Lemma elem_of_classes ks k : k ∈ classes_ ks ↔ k ∈ ks.
Proof. rewrite classes_perm. apply elem_of_remove_dups. Qed.



Lemma code_Some cl k i : code cl k = Some i → cl !! i = Some k.
Proof.
  unfold code. intros H.
  destruct (list_find _ cl) as [[j x]|] eqn:E; simplify_eq/=.
  apply list_find_Some in E as (? & -> & _). done.
Qed.

Lemma code_lookup cl k i : NoDup cl → cl !! i = Some k → code cl k = Some i.
Proof.
  intros Hnd Hi. unfold code.
  destruct (list_find (λ k', k' = k) cl) as [[j x]|] eqn:E.
  - apply list_find_Some in E as (Hj & -> & _). simpl.
    f_equal. eapply NoDup_lookup; eauto.
  - apply list_find_None in E. rewrite Forall_forall in E.
    exfalso. eapply E; [|done]. eapply list_elem_of_lookup_2; eauto.
Qed.

Lemma code_elem_of cl k : NoDup cl → k ∈ cl → is_Some (code cl k).
Proof.
  intros Hnd (i & Hi)%list_elem_of_lookup_1. exists i. by apply code_lookup.
Qed.



(** On labels of one kind the encoder returns, for each cell, the
    position of its label among the classes. *)
Lemma fit_transform_labels y ks :
  labels y = Ok ks →
  ∃ codes, fit_transform y = Ok codes
    ∧ Forall2 (λ k n, classes_ ks !! n = Some k) ks codes.
Proof.
  intros Hl. unfold fit_transform. rewrite Hl. simpl.
  destruct (mapM (code (classes_ ks)) ks) as [codes|] eqn:E.
  - exists codes. split; [done|].
    apply mapM_Some_1 in E. eapply Forall2_impl; [exact E|].
    intros k n Hc. by apply code_Some.
  - apply mapM_None_1, Exists_exists in E as (k & Hk & Hn).
    destruct (code_elem_of (classes_ ks) k) as [n Hn'];
      [apply classes_NoDup|by apply elem_of_classes|congruence].
Qed.

Lemma labels_strings (vs : list string) :
  labels (Str <$> vs) = Ok (KStr <$> vs).
Proof.
  unfold labels.
  rewrite (mapM_Some_2 cell_key (Str <$> vs) (KStr <$> vs)).
  - assert (forallb is_KStr (KStr <$> vs) = true) as ->; [|done].
    induction vs; simpl; auto.
  - induction vs; constructor; auto.
Qed.

End Encoder.

(** ** Reading and writing columns *)

Section Columns.

Lemma zip_insert_same (c : string) (rs : list row) (vs : list cell) :
  length vs = length rs →
  map (λ r, cell_at r c) (zip_with (λ r v, <[c:=v]> r) rs vs) = vs.
Proof.
  revert vs. induction rs as [|r rs IH]; intros [|v vs] Hl; simplify_eq/=; [done|].
  unfold cell_at at 1. rewrite lookup_insert_eq. simpl. f_equal. by apply IH.
Qed.

Lemma zip_insert_other (c c' : string) (rs : list row) (vs : list cell) :
  c' ≠ c → length vs = length rs →
  map (λ r, cell_at r c') (zip_with (λ r v, <[c:=v]> r) rs vs)
  = map (λ r, cell_at r c') rs.
Proof.
  intros Hne. revert vs.
  induction rs as [|r rs IH]; intros [|v vs] Hl; simplify_eq/=; [done|].
  unfold cell_at at 1 3. rewrite lookup_insert_ne by done. f_equal. by apply IH.
Qed.

Lemma setitem_inv df c vs df' :
  setitem df c vs = Ok df' →
  length vs = length (rows df)
  ∧ columns df' = add_column (columns df) c
  ∧ rows df' = zip_with (λ r v, <[c:=v]> r) (rows df) vs.
Proof. unfold setitem. case_decide; intros; by simplify_eq/=. Qed.

Lemma setitem_length df c vs df' :
  setitem df c vs = Ok df' → length (rows df') = length (rows df).
Proof.
  intros (Hl & _ & ->)%setitem_inv. rewrite length_zip_with. lia.
Qed.

Lemma getitem_length df c y : getitem df c = Ok y → length y = length (rows df).
Proof.
  unfold getitem. case_decide; intros; simplify_eq. by rewrite length_map.
Qed.

Lemma setitem_columns df c vs df' c' :
  setitem df c vs = Ok df' → c' ∈ columns df' ↔ c' = c ∨ c' ∈ columns df.
Proof.
  intros (_ & -> & _)%setitem_inv. unfold add_column. case_decide; set_solver.
Qed.

Lemma getitem_setitem_eq df c vs df' :
  setitem df c vs = Ok df' → getitem df' c = Ok vs.
Proof.
  intros Hs. pose proof (setitem_columns _ _ _ _ c Hs) as Hin.
  apply setitem_inv in Hs as (Hl & _ & Hr). unfold getitem.
  rewrite decide_True by (apply Hin; by left).
  by rewrite Hr, zip_insert_same.
Qed.

Lemma getitem_setitem_ne df c vs df' c' :
  setitem df c vs = Ok df' → c' ≠ c → getitem df' c' = getitem df c'.
Proof.
  intros Hs Hne. pose proof (setitem_columns _ _ _ _ c' Hs) as Hin.
  apply setitem_inv in Hs as (Hl & _ & Hr). unfold getitem.
  rewrite Hr, zip_insert_other by done.
  destruct (decide (c' ∈ columns df)) as [Hc|Hc].
  - rewrite decide_True; [done|]. apply Hin. by right.
  - rewrite decide_False; [done|]. rewrite Hin. tauto.
Qed.

Lemma getitem_list_Ok df cs :
  (∀ c, c ∈ cs → c ∈ columns df) → ∃ X, getitem_list df cs = Ok X.
Proof.
  intros H. unfold getitem_list.
  destruct (list_find (λ c, c ∉ columns df) cs) as [[i c]|] eqn:E; [|eauto].
  apply list_find_Some in E as (Hi & Hn & _).
  exfalso. apply Hn, H. eapply list_elem_of_lookup_2; eauto.
Qed.

Lemma getitem_Ok_columns df c y : getitem df c = Ok y → c ∈ columns df.
Proof. unfold getitem. by case_decide. Qed.

Lemma getitem_list_inv df cs X :
  getitem_list df cs = Ok X →
  (∀ c, c ∈ cs → c ∈ columns df)
  ∧ columns X = cs
  ∧ rows X = map (λ r, filter (λ kv, kv.1 ∈ cs) r) (rows df).
Proof.
  unfold getitem_list.
  destruct (list_find (λ c, c ∉ columns df) cs) as [[i c]|] eqn:E; [done|].
  intros [= <-]. split; [|done].
  apply list_find_None in E. rewrite Forall_forall in E.
  intros c Hc. destruct (decide (c ∈ columns df)); [done|]. by destruct (E c Hc).
Qed.

(** A column of [df[cs]] is the column of [df]. *)
Lemma getitem_of_getitem_list df cs X c :
  getitem_list df cs = Ok X → c ∈ cs → getitem X c = getitem df c.
Proof.
  intros (Hin & HcX & HrX)%getitem_list_inv Hc. unfold getitem.
  rewrite HcX, HrX, !decide_True by auto. f_equal.
  rewrite map_map. apply map_ext. intros r. unfold cell_at.
  destruct (r !! c) as [v|] eqn:E.
  - by rewrite (map_lookup_filter_Some_2 _ _ _ _ E).
  - rewrite (proj2 (map_lookup_filter_None _ _ _)); [done|]. by left.
Qed.

Lemma clean_string_column df c :
  clean df → string_typed df c → ∃ vs, getitem df c = Ok (Str <$> vs).
Proof.
  intros Hc [Hin Hty]. unfold getitem. rewrite decide_True by done.
  unfold clean in Hc. induction (rows df) as [|r rs IH]; [by exists []|].
  apply Forall_cons in Hc as [Hr Hc]. apply Forall_cons in Hty as [Hs Hty].
  destruct (IH Hc Hty) as [vs Hvs].
  apply (row_has_na_false _ _ c) in Hr; [|done].
  destruct (cell_at r c) as [|s|z|x] eqn:E; try done.
  exists (s :: vs). simpl. rewrite E. do 2 f_equal. by injection Hvs.
Qed.

End Columns.

(** ** The encoding step *)

Section EncodeStep.

Import LabelEncoder.

(** One encoding: the new column holds, for each row, the position of
    the row's label among the sorted distinct labels; the table is
    otherwise as [setitem] leaves it. *)
Lemma encode_column_strings src dst df vs :
  getitem df src = Ok (Str <$> vs) →
  ∃ codes df',
    encode_column src dst df = Ok df'
    ∧ setitem df dst (int_column codes) = Ok df'
    ∧ Forall2 (λ s n, classes_ (KStr <$> vs) !! n = Some (KStr s)) vs codes.
Proof.
  intros Hg. unfold encode_column. rewrite Hg; simpl.
  destruct (fit_transform_labels _ _ (labels_strings vs)) as (codes & -> & Hf).
  simpl. exists codes.
  assert (length (int_column codes) = length (rows df)) as Hl.
  { unfold int_column. rewrite length_map.
    apply Forall2_length in Hf. rewrite <- Hf, length_fmap.
    apply getitem_length in Hg. by rewrite length_fmap in Hg. }
  unfold setitem. rewrite decide_True by done.
  eexists; split; [done|split; [done|]].
  by apply Forall2_fmap_l in Hf.
Qed.

Lemma encode_step_strings df :
  (∀ c, c ∈ categorical_columns → ∃ vs, getitem df c = Ok (Str <$> vs)) →
  ∃ df', encode_step df = Ok df'
    ∧ length (rows df') = length (rows df)
    ∧ (∀ c, c ∉ encoded_columns → getitem df' c = getitem df c)
    ∧ ∀ src dst, (src, dst) ∈ encodings →
        ∃ vs codes,
          getitem df src = Ok (Str <$> vs)
          ∧ getitem df' dst = Ok (int_column codes)
          ∧ Forall2 (λ s n, classes_ (KStr <$> vs) !! n = Some (KStr s))
                    vs codes.
Proof.
  intros H.
  destruct (H "species") as [v1 H1]; [set_solver|].
  destruct (H "island") as [v2 H2]; [set_solver|].
  destruct (H "sex") as [v3 H3]; [set_solver|].
  destruct (encode_column_strings "species" "species_encoded" df v1 H1)
    as (c1 & d1 & E1 & S1 & F1).
  assert (getitem d1 "island" = Ok (Str <$> v2)) as H2'.
  { by rewrite (getitem_setitem_ne _ _ _ _ _ S1). }
  destruct (encode_column_strings "island" "island_encoded" d1 v2 H2')
    as (c2 & d2 & E2 & S2 & F2).
  assert (getitem d2 "sex" = Ok (Str <$> v3)) as H3'.
  { rewrite (getitem_setitem_ne _ _ _ _ _ S2) by done.
    by rewrite (getitem_setitem_ne _ _ _ _ _ S1). }
  destruct (encode_column_strings "sex" "sex_encoded" d2 v3 H3')
    as (c3 & d3 & E3 & S3 & F3).
  exists d3. unfold encode_step. rewrite E1; simpl. rewrite E2; simpl.
  split; [done|]. split.
  { rewrite (setitem_length _ _ _ _ S3), (setitem_length _ _ _ _ S2).
    apply (setitem_length _ _ _ _ S1). }
  split.
  { intros c Hc. unfold encoded_columns in Hc; simpl in Hc.
    rewrite !not_elem_of_cons in Hc. destruct Hc as (? & ? & ? & _).
    rewrite (getitem_setitem_ne _ _ _ _ _ S3) by done.
    rewrite (getitem_setitem_ne _ _ _ _ _ S2) by done.
    by rewrite (getitem_setitem_ne _ _ _ _ _ S1). }
  intros src dst Hin. unfold encodings in Hin.
  repeat (apply elem_of_cons in Hin as [Hin|Hin]); simplify_eq.
  - exists v1, c1. split; [done|]. split; [|done].
    rewrite (getitem_setitem_ne _ _ _ _ _ S3) by done.
    rewrite (getitem_setitem_ne _ _ _ _ _ S2) by done.
    by apply getitem_setitem_eq in S1.
  - exists v2, c2. split; [done|]. split; [|done].
    rewrite (getitem_setitem_ne _ _ _ _ _ S3) by done.
    by apply getitem_setitem_eq in S2.
  - exists v3, c3. split; [done|]. split; [|done].
    by apply getitem_setitem_eq in S3.
  - by apply elem_of_nil in Hin.
Qed.

End EncodeStep.

(** ** Codes as positions among the classes *)

Section Codes.

Import LabelEncoder.



#[global] Instance KStr_inj : Inj (=) (=) KStr.
Proof. by intros s t [= ->]. Qed.


Context (vs : list string) (codes : list nat).
Hypothesis Hcodes :
  Forall2 (λ s n, classes_ (KStr <$> vs) !! n = Some (KStr s)) vs codes.









End Codes.



(** ** Standardisation, in exact arithmetic *)

Section Standardize.

Import StandardScaler.
Local Open Scope R_scope.


















End Standardize.

(** ** The scaling step *)

Section ScaleStep.

Import StandardScaler.

Lemma numeric_column_inv df c xs :
  numeric_column df c = Ok xs →
  c ∈ columns df ∧ length xs = length (rows df)
  ∧ getitem df c = Ok (map (λ r, cell_at r c) (rows df))
  ∧ mapM cell_num (map (λ r, cell_at r c) (rows df)) = Some xs.
Proof.
  unfold numeric_column, getitem. case_decide; [|done]. simpl.
  destruct (mapM _ _) as [ys|] eqn:E; [|done]. intros [= ->].
  repeat split; try done.
  apply length_mapM in E. by rewrite length_map in E.
Qed.

Lemma clean_numeric_column df c :
  clean df → numeric_typed df c → ∃ xs, numeric_column df c = Ok xs.
Proof.
  intros Hc [Hin Hty]. unfold numeric_column, getitem.
  rewrite decide_True by done. simpl.
  destruct (mapM cell_num (map (λ r, cell_at r c) (rows df))) as [xs|] eqn:E;
    [by exists xs|].
  apply mapM_None_1, Exists_exists in E as (v & Hv & Hn).
  apply list_elem_of_fmap in Hv as (r & -> & Hr).
  unfold clean in Hc. rewrite Forall_forall in Hc, Hty.
  pose proof (Hty r Hr) as Hn'. simpl in Hn'.
  pose proof (row_has_na_false _ _ c (Hc r Hr) Hin) as Hf.
  by destruct (cell_at r c).
Qed.

Lemma setitem_present df c vs :
  c ∈ columns df → length vs = length (rows df) →
  ∃ df', setitem df c vs = Ok df'
    ∧ columns df' = columns df
    ∧ length (rows df') = length (rows df).
Proof.
  intros Hc Hl. unfold setitem. rewrite decide_True by done.
  eexists; split; [done|]. simpl. unfold add_column.
  rewrite decide_True by done.
  split; [done|]. rewrite length_zip_with. lia.
Qed.

Lemma numeric_column_setitem_ne df c vs df' c' :
  setitem df c vs = Ok df' → c' ≠ c →
  numeric_column df' c' = numeric_column df c'.
Proof.
  intros Hs Hne. unfold numeric_column.
  by rewrite (getitem_setitem_ne _ _ _ _ _ Hs Hne).
Qed.

Lemma numeric_columns_of_getitem_list df cs X cs' :
  getitem_list df cs = Ok X → (∀ c, c ∈ cs' → c ∈ cs) →
  numeric_columns X cs' = numeric_columns df cs'.
Proof.
  intros HX. induction cs' as [|c cs' IH]; intros Hsub; [done|].
  cbn [numeric_columns]. rewrite IH by (intros c' Hc'; apply Hsub; by right).
  unfold numeric_column.
  by rewrite (getitem_of_getitem_list _ _ _ _ HX) by (apply Hsub; left).
Qed.

Lemma to_float_array_of_getitem_list df cs X :
  getitem_list df cs = Ok X → to_float_array X = numeric_columns df cs.
Proof.
  intros HX. unfold to_float_array.
  destruct (getitem_list_inv _ _ _ HX) as (_ & -> & _).
  by apply (numeric_columns_of_getitem_list df cs).
Qed.

Lemma length_transform xs : length (transform xs) = length xs.
Proof. unfold transform. by rewrite length_map. Qed.

(** What the scaling step does to a table with rows whose four
    measurement columns hold numbers. *)
Lemma scale_step_spec df :
  rows df ≠ [] →
  (∀ c, c ∈ numerical_features → ∃ xs, numeric_column df c = Ok xs) →
  ∃ df', scale_step df = Ok df'
    ∧ columns df' = columns df
    ∧ length (rows df') = length (rows df)
    ∧ (∀ c, c ∉ numerical_features → getitem df' c = getitem df c)
    ∧ ∀ c xs, c ∈ numerical_features → numeric_column df c = Ok xs →
        getitem df' c = Ok (float_column (transform xs)).
Proof.
  intros Hrows H.
  destruct (H "bill_length_mm") as [x1 H1]; [set_solver|].
  destruct (H "bill_depth_mm") as [x2 H2]; [set_solver|].
  destruct (H "flipper_length_mm") as [x3 H3]; [set_solver|].
  destruct (H "body_mass_g") as [x4 H4]; [set_solver|].
  destruct (numeric_column_inv _ _ _ H1) as (I1 & L1 & _).
  destruct (numeric_column_inv _ _ _ H2) as (I2 & L2 & _).
  destruct (numeric_column_inv _ _ _ H3) as (I3 & L3 & _).
  destruct (numeric_column_inv _ _ _ H4) as (I4 & L4 & _).
  assert (∀ xs : list R, length xs = length (rows df) → xs ≠ []) as Hne.
  { intros xs Hl ->. destruct (rows df); simplify_eq/=. }
  destruct (getitem_list_Ok df numerical_features) as [X HX].
  { intros c Hc. destruct (H c Hc) as [xs Hxs].
    by apply numeric_column_inv in Hxs as (? & _). }
  unfold scale_step. rewrite HX. cbn [mbind result_bind].
  rewrite (to_float_array_of_getitem_list _ _ _ HX).
  cbn [numerical_features numeric_columns].
  rewrite H1; simpl. rewrite H2; simpl. rewrite H3; simpl. rewrite H4; simpl.
  unfold fit_transform. cbn [forallb map].
  rewrite !bool_decide_eq_true_2 by auto. cbn [andb mbind result_bind].
  destruct (setitem_present df "bill_length_mm" (float_column (transform x1)))
    as (d1 & S1 & C1 & R1); [done|..].
  { unfold float_column. by rewrite length_map, length_transform. }
  destruct (setitem_present d1 "bill_depth_mm" (float_column (transform x2)))
    as (d2 & S2 & C2 & R2); [by rewrite C1|..].
  { unfold float_column. by rewrite length_map, length_transform, R1. }
  destruct (setitem_present d2 "flipper_length_mm" (float_column (transform x3)))
    as (d3 & S3 & C3 & R3); [by rewrite C2, C1|..].
  { unfold float_column. by rewrite length_map, length_transform, R2, R1. }
  destruct (setitem_present d3 "body_mass_g" (float_column (transform x4)))
    as (d4 & S4 & C4 & R4); [by rewrite C3, C2, C1|..].
  { unfold float_column. by rewrite length_map, length_transform, R3, R2, R1. }
  exists d4. cbn [setitem_list]. rewrite S1; simpl. rewrite S2; simpl.
  rewrite S3; simpl. rewrite S4.
  split; [done|]. split; [by rewrite C4, C3, C2, C1|].
  split; [by rewrite R4, R3, R2, R1|]. split.
  - intros c Hc. unfold numerical_features in Hc.
    rewrite !not_elem_of_cons in Hc. destruct Hc as (? & ? & ? & ? & _).
    rewrite (getitem_setitem_ne _ _ _ _ _ S4) by done.
    rewrite (getitem_setitem_ne _ _ _ _ _ S3) by done.
    rewrite (getitem_setitem_ne _ _ _ _ _ S2) by done.
    by rewrite (getitem_setitem_ne _ _ _ _ _ S1).
  - intros c xs Hc Hxs. unfold numerical_features in Hc.
    repeat (apply elem_of_cons in Hc as [Hc|Hc]); simplify_eq;
      try by apply elem_of_nil in Hc.
    + assert (xs = x1) as -> by congruence.
      rewrite (getitem_setitem_ne _ _ _ _ _ S4) by done.
      rewrite (getitem_setitem_ne _ _ _ _ _ S3) by done.
      rewrite (getitem_setitem_ne _ _ _ _ _ S2) by done.
      by apply getitem_setitem_eq in S1.
    + assert (xs = x2) as -> by congruence.
      rewrite (getitem_setitem_ne _ _ _ _ _ S4) by done.
      rewrite (getitem_setitem_ne _ _ _ _ _ S3) by done.
      by apply getitem_setitem_eq in S2.
    + assert (xs = x3) as -> by congruence.
      rewrite (getitem_setitem_ne _ _ _ _ _ S4) by done.
      by apply getitem_setitem_eq in S3.
    + assert (xs = x4) as -> by congruence.
      by apply getitem_setitem_eq in S4.
Qed.

End ScaleStep.




(** ** Running statements *)

Section Run.

Lemma bind_eq {A B} (m : M A) (f : A → M B) (w : world) :
  (m ≫= f) w = match m w with
               | (Ok a, w') => f a w'
               | (Raise e, w') => (Raise e, w')
               end.
Proof. done. Qed.

Lemma read_eq {A} (l : loc) (f : DataFrame → A) w df :
  heap w !! l = Some df → read l f w = (Ok (f df), w).
Proof. intros H. unfold read, deref. rewrite bind_eq. by rewrite H. Qed.

Lemma read_result_eq {A} (l : loc) (f : DataFrame → result A) w df :
  heap w !! l = Some df → read_result l f w = (f df, w).
Proof. intros H. unfold read_result, deref. rewrite bind_eq. by rewrite H. Qed.

Lemma deref_None {A} (l : loc) (k : DataFrame → M A) w :
  heap w !! l = None →
  (deref l ≫= k) w
  = (Raise (AttributeError "'NoneType' object has no attribute"), w).
Proof. intros H. rewrite bind_eq. unfold deref. by rewrite H. Qed.

Lemma derive_eq (l : loc) (f : DataFrame → result DataFrame) w df :
  heap w !! l = Some df →
  derive l f w =
    match f df with
    | Ok df' => (Ok (fresh (dom (heap w))),
                 set_heap (<[fresh (dom (heap w)) := df']> (heap w)) w)
    | Raise e => (Raise e, w)
    end.
Proof.
  intros H. unfold derive, deref. rewrite bind_eq, H.
  rewrite bind_eq. unfold lift. by destruct (f df).
Qed.

Lemma update_eq (l : loc) (f : DataFrame → result DataFrame) w df :
  heap w !! l = Some df →
  update l f w =
    match f df with
    | Ok df' => (Ok (), set_heap (<[l := df']> (heap w)) w)
    | Raise e => (Raise e, w)
    end.
Proof.
  intros H. unfold update, deref. rewrite bind_eq, H.
  rewrite bind_eq. unfold lift. by destruct (f df).
Qed.

Lemma fresh_heap (h : gmap loc DataFrame) : h !! fresh (dom h) = None.
Proof. apply not_elem_of_dom, is_fresh. Qed.

End Run.

(** ** [preprocess_penguins_data], statement by statement *)

Section Preprocess.

(** Whatever the function does, the files and the objects that exist
    before the call are as they were after it; when it returns, the
    third component is a new object holding [processed_table] of the
    input, the first a new object holding its feature columns and the
    second its column of species codes. *)
Lemma preprocess_penguins_data_run (l : loc) (w : world) :
  ∀ r w', preprocess_penguins_data l w = (r, w') →
    fs w' = fs w
    ∧ heap w ⊆ heap w'
    ∧ match r with
      | Ok (lx, y, lp) =>
          ∃ df dfp X,
            heap w !! l = Some df
            ∧ processed_table df = Ok dfp
            ∧ heap w !! lp = None
            ∧ heap w' !! lp = Some dfp
            ∧ heap w' !! lx = Some X
            ∧ getitem_list dfp feature_columns = Ok X
            ∧ getitem dfp "species_encoded" = Ok y
      | Raise e =>
          match heap w !! l with
          | None => True
          | Some df =>
              processed_table df = Raise e
              ∨ ∃ dfp, processed_table df = Ok dfp
                  ∧ (getitem_list dfp feature_columns = Raise e
                     ∨ getitem dfp "species_encoded" = Raise e)
          end
      end.
Proof.
  intros r w'. unfold preprocess_penguins_data.
  destruct (heap w !! l) as [df|] eqn:Hl; cycle 1.
  { rewrite bind_eq. unfold derive. rewrite deref_None by done.
    by intros [= <- <-]. }
  (* 1. copy *)
  rewrite bind_eq, (derive_eq _ _ _ df Hl).
  pose proof (fresh_heap (heap w)) as Hc.
  set (lc := fresh (dom (heap w))) in *. cbn beta iota.
  (* 2. missing values *)
  rewrite bind_eq, (read_eq _ _ _ df) by apply lookup_insert_eq.
  rewrite bind_eq. cbn [print]. cbn beta iota.
  rewrite bind_eq, (derive_eq _ _ _ df) by apply lookup_insert_eq.
  cbn [set_stdout set_heap heap fs stdout].
  pose proof (fresh_heap (<[lc:=df]> (heap w))) as Hp.
  set (lp := fresh (dom (<[lc:=df]> (heap w)))) in *.
  assert (heap w !! lp = None ∧ lp ≠ lc) as [Hp0 Hpc].
  { apply lookup_insert_None in Hp as [? ?]. done. }
  set (h1 := <[lc:=df]> (heap w)) in *.
  assert (heap w ⊆ h1) as Hsub by (by apply insert_subseteq).
  assert (∀ d, heap w ⊆ <[lp:=d]> h1) as Hsub'.
  { intros d. by apply insert_subseteq_r. }
  clearbody h1 lp. clear Hp Hpc.
  rewrite bind_eq, (read_eq _ _ _ (dropna df)) by apply lookup_insert_eq.
  rewrite bind_eq. cbn [print]. cbn beta iota.
  cbn [set_stdout set_heap heap fs stdout].
  (* 3. encoding *)
  rewrite bind_eq, (update_eq _ _ _ (dropna df)) by apply lookup_insert_eq.
  destruct (encode_column "species" "species_encoded" (dropna df))
    as [d1|e] eqn:E1; cbn [set_stdout set_heap heap fs stdout]; cycle 1.
  { intros [= <- <-]. cbn [set_stdout set_heap heap fs stdout].
    split; [done|]. split; [by auto|]. left.
    unfold processed_table, encode_step. by rewrite E1. }
  rewrite insert_insert_eq.
  rewrite bind_eq, (update_eq _ _ _ d1) by apply lookup_insert_eq.
  destruct (encode_column "island" "island_encoded" d1)
    as [d2|e] eqn:E2; cbn [set_stdout set_heap heap fs stdout]; cycle 1.
  { intros [= <- <-]. cbn [set_stdout set_heap heap fs stdout].
    split; [done|]. split; [by auto|]. left.
    unfold processed_table, encode_step. rewrite E1; simpl. by rewrite E2. }
  rewrite insert_insert_eq.
  rewrite bind_eq, (update_eq _ _ _ d2) by apply lookup_insert_eq.
  destruct (encode_column "sex" "sex_encoded" d2)
    as [d3|e] eqn:E3; cbn [set_stdout set_heap heap fs stdout]; cycle 1.
  { intros [= <- <-]. cbn [set_stdout set_heap heap fs stdout].
    split; [done|]. split; [by auto|]. left.
    unfold processed_table, encode_step. rewrite E1; simpl.
    rewrite E2; simpl. by rewrite E3. }
  rewrite insert_insert_eq.
  (* 4. scaling *)
  rewrite bind_eq, (update_eq _ _ _ d3) by apply lookup_insert_eq.
  destruct (scale_step d3)
    as [dfp|e] eqn:E4; cbn [set_stdout set_heap heap fs stdout]; cycle 1.
  { intros [= <- <-]. cbn [set_stdout set_heap heap fs stdout].
    split; [done|]. split; [by auto|]. left.
    unfold processed_table, encode_step. rewrite E1; simpl.
    rewrite E2; simpl. by rewrite E3. }
  rewrite insert_insert_eq.
  assert (processed_table df = Ok dfp) as Hproc.
  { unfold processed_table, encode_step.
    rewrite E1; simpl. rewrite E2; simpl. by rewrite E3. }
  (* 5. features *)
  rewrite bind_eq, (derive_eq _ _ _ dfp) by apply lookup_insert_eq.
  destruct (getitem_list dfp feature_columns)
    as [X|e] eqn:E5; cbn [set_stdout set_heap heap fs stdout]; cycle 1.
  { intros [= <- <-]. cbn [set_stdout set_heap heap fs stdout].
    split; [done|]. split; [by auto|]. right. eauto. }
  pose proof (fresh_heap (<[lp:=dfp]> h1)) as Hx.
  set (lx := fresh (dom (<[lp:=dfp]> h1))) in *.
  assert (lx ≠ lp) as Hxp.
  { apply lookup_insert_None in Hx as [? ?]. done. }
  assert (heap w ⊆ <[lx:=X]> (<[lp:=dfp]> h1)) as Hsub''.
  { apply insert_subseteq_r; [|done].
    eapply lookup_weaken_None; [exact Hx|done]. }
  clearbody lx.
  rewrite bind_eq, (read_result_eq _ _ _ dfp)
    by (simpl; by rewrite lookup_insert_ne, lookup_insert_eq).
  destruct (getitem dfp "species_encoded") as [y|e] eqn:E6; cycle 1.
  { intros [= <- <-]. cbn [set_stdout set_heap heap fs stdout].
    split; [done|]. split; [by auto|]. right. eauto. }
  rewrite bind_eq, (read_eq _ _ _ dfp)
    by (simpl; by rewrite lookup_insert_ne, lookup_insert_eq).
  rewrite bind_eq. cbn [print]. cbn beta iota.
  rewrite bind_eq, (read_eq _ _ _ X) by (simpl; apply lookup_insert_eq).
  rewrite bind_eq. cbn [print]. cbn beta iota.
  rewrite bind_eq. cbn [print]. cbn beta iota.
  intros [= <- <-]. cbn [set_stdout set_heap heap fs stdout].
  split; [done|]. split; [done|].
  exists df, dfp, X. repeat split; try done.
  - by rewrite lookup_insert_ne, lookup_insert_eq.
  - apply lookup_insert_eq.
Qed.

End Preprocess.

(** ** What a processed table is made of *)

Section Frame.

Import StandardScaler.

Lemma encode_column_inv src dst df df' :
  encode_column src dst df = Ok df' →
  ∃ codes, setitem df dst (int_column codes) = Ok df'.
Proof.
  unfold encode_column. destruct (getitem df src) as [y|]; [|done]. simpl.
  destruct (LabelEncoder.fit_transform y) as [codes|]; [|done]. simpl. eauto.
Qed.

Lemma encode_step_inv df df' :
  encode_step df = Ok df' →
  columns df' = foldl add_column (columns df) encoded_columns
  ∧ length (rows df') = length (rows df)
  ∧ (∀ c, c ∉ encoded_columns → getitem df' c = getitem df c)
  ∧ (∀ c, c ∈ encoded_columns →
       ∃ codes, getitem df' c = Ok (int_column codes)).
Proof.
  unfold encode_step.
  destruct (encode_column "species" _ df) as [d1|] eqn:E1; [|done]. simpl.
  destruct (encode_column "island" _ d1) as [d2|] eqn:E2; [|done]. simpl.
  intros E3.
  apply encode_column_inv in E1 as [c1 S1].
  apply encode_column_inv in E2 as [c2 S2].
  apply encode_column_inv in E3 as [c3 S3].
  split; [|split; [|split]].
  - apply setitem_inv in S1 as (_ & C1 & _).
    apply setitem_inv in S2 as (_ & C2 & _).
    apply setitem_inv in S3 as (_ & C3 & _).
    simpl. by rewrite C3, C2, C1.
  - rewrite (setitem_length _ _ _ _ S3), (setitem_length _ _ _ _ S2).
    apply (setitem_length _ _ _ _ S1).
  - intros c Hc. unfold encoded_columns in Hc; simpl in Hc.
    rewrite !not_elem_of_cons in Hc. destruct Hc as (? & ? & ? & _).
    rewrite (getitem_setitem_ne _ _ _ _ _ S3) by done.
    rewrite (getitem_setitem_ne _ _ _ _ _ S2) by done.
    by rewrite (getitem_setitem_ne _ _ _ _ _ S1).
  - intros c Hc. unfold encoded_columns in Hc; simpl in Hc.
    repeat (apply elem_of_cons in Hc as [Hc|Hc]); simplify_eq;
      try by apply elem_of_nil in Hc.
    + exists c1.
      rewrite (getitem_setitem_ne _ _ _ _ _ S3) by done.
      rewrite (getitem_setitem_ne _ _ _ _ _ S2) by done.
      by apply getitem_setitem_eq in S1.
    + exists c2.
      rewrite (getitem_setitem_ne _ _ _ _ _ S3) by done.
      by apply getitem_setitem_eq in S2.
    + exists c3. by apply getitem_setitem_eq in S3.
Qed.

Lemma scale_step_inv df df' :
  scale_step df = Ok df' →
  rows df ≠ []
  ∧ ∀ c, c ∈ numerical_features → ∃ xs, numeric_column df c = Ok xs.
Proof.
  unfold scale_step.
  destruct (getitem_list df numerical_features) as [X|] eqn:HX; [|done].
  cbn [mbind result_bind]. rewrite (to_float_array_of_getitem_list _ _ _ HX).
  cbn [numerical_features numeric_columns].
  destruct (numeric_column df "bill_length_mm") as [x1|] eqn:H1; [|done].
  destruct (numeric_column df "bill_depth_mm") as [x2|] eqn:H2; [|done].
  destruct (numeric_column df "flipper_length_mm") as [x3|] eqn:H3; [|done].
  destruct (numeric_column df "body_mass_g") as [x4|] eqn:H4; [|done].
  simpl. unfold fit_transform. cbn [forallb].
  destruct (bool_decide (x1 ≠ [])) eqn:B1; [|done].
  apply bool_decide_eq_true_1 in B1. intros _. split.
  - intros Hnil. apply numeric_column_inv in H1 as (_ & Hl & _).
    rewrite Hnil in Hl. by destruct x1.
  - intros c Hc. unfold numerical_features in Hc.
    repeat (apply elem_of_cons in Hc as [Hc|Hc]); simplify_eq; eauto.
    by apply elem_of_nil in Hc.
Qed.

Lemma numeric_column_ext df df' c :
  getitem df' c = getitem df c → numeric_column df' c = numeric_column df c.
Proof. unfold numeric_column. by intros ->. Qed.

Lemma encoded_not_numerical c :
  c ∈ numerical_features → c ∉ encoded_columns.
Proof.
  unfold numerical_features, encoded_columns; simpl. intros Hc.
  repeat (apply elem_of_cons in Hc as [Hc|Hc]); simplify_eq;
    try (by apply elem_of_nil in Hc);
    rewrite !not_elem_of_cons; repeat split; try done; apply not_elem_of_nil.
Qed.

(** The frame of the whole transformation. *)
Lemma processed_table_inv df dfp :
  processed_table df = Ok dfp →
  columns dfp = foldl add_column (columns df) encoded_columns
  ∧ length (rows dfp) = length (rows (dropna df))
  ∧ rows (dropna df) ≠ []
  ∧ (∀ c, c ∉ encoded_columns → c ∉ numerical_features →
       getitem dfp c = getitem (dropna df) c)
  ∧ (∀ c, c ∈ encoded_columns →
       ∃ codes, getitem dfp c = Ok (int_column codes))
  ∧ (∀ c, c ∈ numerical_features →
       ∃ xs, numeric_column (dropna df) c = Ok xs
         ∧ getitem dfp c = Ok (float_column (transform xs))).
Proof.
  unfold processed_table.
  destruct (encode_step (dropna df)) as [d3|] eqn:E; [|done]. simpl.
  intros Hs. apply encode_step_inv in E as (Hc & Hl & Hkeep & Hcodes).
  destruct (scale_step_inv _ _ Hs) as [Hrows Hnum].
  destruct (scale_step_spec d3 Hrows Hnum) as (d4 & Hs' & C4 & L4 & K4 & N4).
  rewrite Hs in Hs'. injection Hs' as <-.
  split; [by rewrite C4|]. split; [by rewrite L4|]. split.
  { intros Hnil. apply Hrows, length_zero_iff_nil. rewrite Hl.
    apply length_zero_iff_nil. exact Hnil. }
  split; [|split].
  - intros c H1 H2. rewrite K4 by done. by apply Hkeep.
  - intros c Hc'. destruct (Hcodes c Hc') as [codes Hg].
    exists codes. rewrite K4; [done|].
    intros Hn. by apply encoded_not_numerical in Hn.
  - intros c Hc'. destruct (Hnum c Hc') as [xs Hxs].
    exists xs. split; [|by apply N4].
    rewrite <- Hxs. symmetry. apply numeric_column_ext, Hkeep.
    by apply encoded_not_numerical.
Qed.

(** A call on a table that can be processed returns. *)
Lemma preprocess_penguins_data_returns (l : loc) (w : world) df dfp :
  heap w !! l = Some df →
  processed_table df = Ok dfp →
  ∃ lx y lp w',
    preprocess_penguins_data l w = (Ok (lx, y, lp), w')
    ∧ heap w' !! lp = Some dfp.
Proof.
  intros Hl Hp.
  destruct (processed_table_inv _ _ Hp) as (_ & _ & _ & _ & Henc & Hnum).
  destruct (getitem_list_Ok dfp feature_columns) as [X HX].
  { intros c Hc. unfold feature_columns in Hc.
    apply elem_of_app in Hc as [Hc|Hc].
    - destruct (Hnum c Hc) as (xs & _ & Hg). by apply getitem_Ok_columns in Hg.
    - destruct (Henc c) as (codes & Hg); [|by apply getitem_Ok_columns in Hg].
      unfold encoded_columns; simpl. set_solver. }
  destruct (Henc "species_encoded") as [codes Hy].
  { unfold encoded_columns; simpl. set_solver. }
  destruct (preprocess_penguins_data l w) as [r w'] eqn:E.
  destruct (preprocess_penguins_data_run l w r w' E) as (_ & _ & Hr).
  destruct r as [[[lx y] lp]|e].
  - destruct Hr as (df0 & dfp0 & X0 & H1 & H2 & _ & H4 & _).
    exists lx, y, lp, w'. split; [done|]. congruence.
  - rewrite Hl in Hr. destruct Hr as [Hr|(dfp0 & H1 & [H2|H2])]; congruence.
Qed.

End Frame.

(** ** Tables in the input format can be processed *)

Section Typed.

Lemma dropna_string_typed df c : string_typed df c → string_typed (dropna df) c.
Proof.
  intros [Hc Hty]. split; [done|]. simpl.
  rewrite Forall_forall in Hty. apply Forall_forall.
  intros r Hr. apply list_elem_of_filter in Hr as [_ Hr]. auto.
Qed.

Lemma dropna_numeric_typed df c : numeric_typed df c → numeric_typed (dropna df) c.
Proof.
  intros [Hc Hty]. split; [done|]. simpl.
  rewrite Forall_forall in Hty. apply Forall_forall.
  intros r Hr. apply list_elem_of_filter in Hr as [_ Hr]. auto.
Qed.

Lemma scale_step_typed df :
  clean df → rows df ≠ [] →
  (∀ c, c ∈ numerical_features → numeric_typed df c) →
  ∃ df', scale_step df = Ok df'.
Proof.
  intros Hc Hr Hty. destruct (scale_step_spec df Hr) as (df' & Hs & _); [|eauto].
  intros c Hin. apply clean_numeric_column; auto.
Qed.

Lemma processed_table_typed df :
  (∀ c, c ∈ categorical_columns → string_typed df c) →
  (∀ c, c ∈ numerical_features → numeric_typed df c) →
  rows (dropna df) ≠ [] →
  ∃ dfp, processed_table df = Ok dfp.
Proof.
  intros Hs Hn Hrows. unfold processed_table.
  destruct (encode_step_strings (dropna df)) as (d3 & E & Hl & Hkeep & _).
  { intros c Hc. apply clean_string_column;
      [apply dropna_clean|apply dropna_string_typed; auto]. }
  rewrite E. simpl.
  destruct (scale_step_spec d3) as (d4 & S4 & _); [| |eauto].
  - intros Hnil. apply Hrows, length_zero_iff_nil. rewrite <- Hl.
    by apply length_zero_iff_nil.
  - intros c Hc.
    destruct (clean_numeric_column (dropna df) c) as [xs Hxs];
      [apply dropna_clean|apply dropna_numeric_typed; auto|].
    exists xs. rewrite <- Hxs. apply numeric_column_ext, Hkeep.
    by apply encoded_not_numerical.
Qed.

End Typed.

(** C7, as the code has it: when the input table has no column named
    species_encoded, island_encoded or sex_encoded, the table the
    function returns has the columns of the input followed by these
    three, which hold integer codes; the four measurement columns hold
    the standardized values of the rows kept; every other column,
    species, island and sex among them, holds what it held in the rows
    kept by the drop. *)
Theorem C7_processed_table_frame
    (l : loc) (w w' : world) (df : DataFrame) (lx lp : loc) (y : Series) :
  heap w !! l = Some df →
  (∀ c, c ∈ encoded_columns → c ∉ columns df) →
  preprocess_penguins_data l w = (Ok (lx, y, lp), w') →
  ∃ dfp, heap w' !! lp = Some dfp
    ∧ columns dfp = columns df ++ encoded_columns
    ∧ (∀ c, c ∈ categorical_columns →
         getitem dfp c = getitem (dropna df) c)
    ∧ (∀ c, c ∉ encoded_columns → c ∉ numerical_features →
         getitem dfp c = getitem (dropna df) c)
    ∧ (∀ c, c ∈ encoded_columns →
         ∃ codes : list nat, getitem dfp c = Ok (int_column codes))
    ∧ (∀ c, c ∈ numerical_features →
         ∃ xs : list R,
           numeric_column (dropna df) c = Ok xs
           ∧ getitem dfp c = Ok (float_column (StandardScaler.transform xs))).
Proof.
  intros Hl Hfree Hrun.
  destruct (preprocess_penguins_data_run _ _ _ _ Hrun) as (_ & _ & Hr).
  destruct Hr as (df0 & dfp & X & H1 & Hp & _ & Hlp & _).
  assert (df0 = df) as -> by congruence.
  destruct (processed_table_inv _ _ Hp) as (Hc & _ & _ & Hkeep & Henc & Hnum).
  exists dfp. split; [done|]. split.
  { rewrite Hc. unfold encoded_columns in *. simpl in *.
    assert ("species_encoded" ∉ columns df) as N1 by (apply Hfree; set_solver).
    assert ("island_encoded" ∉ columns df) as N2 by (apply Hfree; set_solver).
    assert ("sex_encoded" ∉ columns df) as N3 by (apply Hfree; set_solver).
    unfold add_column.
    rewrite (decide_False (P := "species_encoded" ∈ columns df)) by done.
    rewrite (decide_False (P := "island_encoded" ∈ _)) by set_solver.
    rewrite (decide_False (P := "sex_encoded" ∈ _)) by set_solver.
    by rewrite <- !app_assoc. }
  split; [|done].
  intros c Hc'. apply Hkeep.
  - unfold categorical_columns, encoded_columns in *; simpl.
    repeat (apply elem_of_cons in Hc' as [Hc'|Hc']); simplify_eq;
      try (by apply elem_of_nil in Hc');
      rewrite !not_elem_of_cons; repeat split; try done; apply not_elem_of_nil.
  - unfold categorical_columns, numerical_features in *.
    repeat (apply elem_of_cons in Hc' as [Hc'|Hc']); simplify_eq;
      try (by apply elem_of_nil in Hc');
      rewrite !not_elem_of_cons; repeat split; try done; apply not_elem_of_nil.
Qed.

(** C10: whether the call returns or raises, every table that exists
    before it, the argument among them, is the same table after it: the
    function works on objects of its own. *)
Theorem C10_input_table_unchanged (df : loc) (w : world) (l : loc) (t : DataFrame) :
  heap w !! l = Some t →
  heap (preprocess_penguins_data df w).2 !! l = Some t.
Proof.
  intros Hl. destruct (preprocess_penguins_data df w) as [r w'] eqn:E.
  destruct (preprocess_penguins_data_run _ _ _ _ E) as (_ & Hsub & _).
  simpl. by eapply lookup_weaken.
Qed.

(** ** Loading and the orchestrator *)

Section Orchestrator.

Context (parse_csv : string → parsed) (to_csv : DataFrame → string).

Lemma try_except_eq {A} (body : M A) (handler : exn → M A) w :
  try_except body handler w =
    match body w with
    | (Ok a, w') => (Ok a, w')
    | (Raise e, w') => handler e w'
    end.
Proof. done. Qed.

Lemma print_eq (ln : line) w :
  print ln w = (Ok (), set_stdout (stdout w ++ [ln]) w).
Proof. done. Qed.

(** [load_data] in each of the four situations a path can be in. *)
Lemma load_data_cases (path : string) (w : world) :
  match fs w !! path with
  | None =>
      load_data parse_csv path w
      = (Ok None, set_stdout (stdout w ++ [FileNotFoundLine path]) w)
  | Some Dir =>
      load_data parse_csv path w
      = (Ok None,
         set_stdout (stdout w ++ [ErrorLoading (OSError "Is a directory")]) w)
  | Some (File content) =>
      match parse_csv content with
      | Malformed msg =>
          load_data parse_csv path w
          = (Ok None,
             set_stdout (stdout w ++ [ErrorLoading (ParserError msg)]) w)
      | Parsed df =>
          load_data parse_csv path w
          = (Ok (Some (fresh (dom (heap w)))),
             set_stdout (stdout w ++ [DataLoaded (shape df)])
               (set_heap (<[fresh (dom (heap w)) := df]> (heap w)) w))
      end
  end.
Proof.
  unfold load_data. rewrite try_except_eq, bind_eq. unfold read_csv.
  destruct (fs w !! path) as [[content|]|] eqn:E; [|done..].
  destruct (parse_csv content) as [df|msg] eqn:P; [|done].
  unfold new. rewrite bind_eq, (read_eq _ _ _ df) by apply lookup_insert_eq.
  by rewrite bind_eq, print_eq.
Qed.

Lemma first_existing_eq (paths : list string) (w : world) :
  first_existing paths w
  = (Ok (snd <$> list_find (λ p, is_Some (fs w !! p)) paths), w).
Proof.
  induction paths as [|p paths IH]; [done|].
  cbn [first_existing]. rewrite bind_eq. unfold os_path_exists.
  cbn [list_find]. destruct (decide (is_Some (fs w !! p))) as [Hp|Hp].
  - by rewrite bool_decide_eq_true_2.
  - rewrite bool_decide_eq_false_2 by done. rewrite IH.
    by destruct (list_find _ paths) as [[i q]|].
Qed.

Lemma resolve_raw_data_path_eq (w : world) :
  resolve_raw_data_path w
  = (Ok (match fs w !! raw_data_path with
         | Some _ => Some raw_data_path
         | None =>
             snd <$> list_find (λ p, is_Some (fs w !! p)) alternative_paths
         end), w).
Proof.
  unfold resolve_raw_data_path. rewrite bind_eq. unfold os_path_exists.
  destruct (fs w !! raw_data_path) as [n|] eqn:E.
  - by rewrite bool_decide_eq_true_2.
  - rewrite bool_decide_eq_false_2 by (by intros [? ?]).
    apply first_existing_eq.
Qed.

Lemma main_eq (w : world) :
  main parse_csv to_csv w =
    match fs w !! raw_data_path with
    | Some _ => run_pipeline parse_csv to_csv raw_data_path w
    | None =>
        match list_find (λ p, is_Some (fs w !! p)) alternative_paths with
        | Some (_, path) => run_pipeline parse_csv to_csv path w
        | None => (Ok (), set_stdout (stdout w ++ [RawDataNotFound]) w)
        end
    end.
Proof.
  unfold main. rewrite bind_eq, resolve_raw_data_path_eq.
  destruct (fs w !! raw_data_path); [done|].
  by destruct (list_find _ alternative_paths) as [[i q]|].
Qed.

(** When the load fails, the run ends where the load left it. *)
Lemma run_pipeline_load_fails (path : string) (w w2 : world) :
  load_data parse_csv path
    (set_stdout (stdout w ++ [Starting; LoadingRawData]) w) = (Ok None, w2) →
  run_pipeline parse_csv to_csv path w = (Ok (), w2).
Proof.
  intros Hload. unfold run_pipeline.
  rewrite bind_eq, print_eq. rewrite bind_eq, print_eq.
  assert (set_stdout (stdout (set_stdout (stdout w ++ [Starting]) w)
                      ++ [LoadingRawData])
            (set_stdout (stdout w ++ [Starting]) w)
          = set_stdout (stdout w ++ [Starting; LoadingRawData]) w) as ->.
  { unfold set_stdout; simpl. by rewrite <- app_assoc. }
  by rewrite bind_eq, Hload.
Qed.

End Orchestrator.

(** C5: [load_data] never raises.  On a path that leads nowhere it
    returns [None] and prints the file-not-found message; on a path that
    leads to something it returns [None] exactly when the content cannot
    be read as a table, and then prints the other message, with an error
    that is not a missing file.  And when the load of the path [main]
    settled on returns [None], [main] returns in the world the load left:
    the files and the objects are those it started with and nothing is
    printed after the message of the load. *)
Theorem C5_load_failure_stops_the_run
    (parse_csv : string → parsed) (to_csv : DataFrame → string)
    (path : string) (w : world) :
  match fs w !! path with
  | None =>
      load_data parse_csv path w
      = (Ok None, set_stdout (stdout w ++ [FileNotFoundLine path]) w)
  | Some n =>
      ∃ r w', load_data parse_csv path w = (Ok r, w')
        ∧ (r = None ↔
           ∀ content df, n = File content → parse_csv content ≠ Parsed df)
        ∧ (r = None →
           ∃ e, (∀ p, e ≠ FileNotFoundError p)
             ∧ w' = set_stdout (stdout w ++ [ErrorLoading e]) w)
  end
  ∧ ∀ w2,
      resolve_raw_data_path w = (Ok (Some path), w) →
      load_data parse_csv path
        (set_stdout (stdout w ++ [Starting; LoadingRawData]) w) = (Ok None, w2) →
      main parse_csv to_csv w = (Ok (), w2)
      ∧ fs w2 = fs w
      ∧ heap w2 = heap w
      ∧ ∃ msg, stdout w2 = stdout w ++ [Starting; LoadingRawData; msg]
          ∧ (msg = FileNotFoundLine path ∨ ∃ e, msg = ErrorLoading e).
Proof.
  split.
  - pose proof (load_data_cases parse_csv path w) as H.
    destruct (fs w !! path) as [[content|]|]; [| |done].
    + destruct (parse_csv content) as [df|msg] eqn:P.
      * eexists _, _. split; [exact H|]. split; [|done].
        split; [done|]. intros Hn. by destruct (Hn content df).
      * eexists _, _. split; [exact H|]. split.
        -- split; [|done]. intros _ c d [= <-]. by rewrite P.
        -- intros _. by exists (ParserError msg).
    + eexists _, _. split; [exact H|]. split.
      * split; [|done]. by intros _ c d.
      * intros _. by exists (OSError "Is a directory").
  - intros w2 Hres Hload. split.
    + rewrite <- (run_pipeline_load_fails parse_csv to_csv path w w2 Hload).
      unfold main. by rewrite bind_eq, Hres.
    + pose proof (load_data_cases parse_csv path
        (set_stdout (stdout w ++ [Starting; LoadingRawData]) w)) as H.
      cbn [fs set_stdout] in H.
      destruct (fs w !! path) as [[content|]|].
      * destruct (parse_csv content) as [df|msg]; rewrite H in Hload;
          [done|]. injection Hload as <-. cbn [fs heap stdout set_stdout].
        repeat split. exists (ErrorLoading (ParserError msg)).
        rewrite <- app_assoc. eauto.
      * rewrite H in Hload. injection Hload as <-.
        cbn [fs heap stdout set_stdout].
        repeat split. exists (ErrorLoading (OSError "Is a directory")).
        rewrite <- app_assoc. eauto.
      * rewrite H in Hload. injection Hload as <-.
        cbn [fs heap stdout set_stdout].
        repeat split. exists (FileNotFoundLine path).
        rewrite <- app_assoc. eauto.
Qed.

(** C6: when the primary path does not exist, [main] runs the stages on
    the first of penguins.csv, ../penguins.csv, penguins_raw.csv (in
    this order) that exists; when none of them exists either, [main]
    prints its message and returns: no table is loaded, cleaned or
    scaled and no file is written. *)
Theorem C6_fallback_paths
    (parse_csv : string → parsed) (to_csv : DataFrame → string) (w : world) :
  fs w !! raw_data_path = None →
  alternative_paths = ["penguins.csv"; "../penguins.csv"; "penguins_raw.csv"]
  ∧ (∀ i path,
       alternative_paths !! i = Some path →
       is_Some (fs w !! path) →
       (∀ j q, j < i → alternative_paths !! j = Some q → fs w !! q = None) →
       main parse_csv to_csv w = run_pipeline parse_csv to_csv path w)
  ∧ ((∀ path, path ∈ alternative_paths → fs w !! path = None) →
     main parse_csv to_csv w
     = (Ok (), set_stdout (stdout w ++ [RawDataNotFound]) w)
     ∧ fs (main parse_csv to_csv w).2 = fs w
     ∧ heap (main parse_csv to_csv w).2 = heap w).
Proof.
  intros Hprimary. split; [done|]. split.
  - intros i path Hi Hex Hfirst. rewrite main_eq, Hprimary.
    assert (list_find (λ p, is_Some (fs w !! p)) alternative_paths
            = Some (i, path)) as ->; [|done].
    apply list_find_Some. split; [done|]. split; [done|].
    intros j q Hj Hlt [n Hn]. by rewrite (Hfirst j q Hlt Hj) in Hn.
  - intros Hnone.
    assert (main parse_csv to_csv w
            = (Ok (), set_stdout (stdout w ++ [RawDataNotFound]) w)) as ->;
      [|done].
    rewrite main_eq, Hprimary.
    assert (list_find (λ p, is_Some (fs w !! p)) alternative_paths = None)
      as ->; [|done].
    apply list_find_None, Forall_forall. intros p Hp [n Hn].
    by rewrite (Hnone p Hp) in Hn.
Qed.

(** ** Writing a table and reading it back *)

Section RoundTrip.

Import Csv.























End RoundTrip.


(** ** The theorems at sample tables *)

Lemma sample_raw_strings :
  ∀ c, c ∈ categorical_columns → string_typed sample_raw c.
Proof. apply Forall_forall. compute_done. Qed.

Lemma sample_raw_numbers :
  ∀ c, c ∈ numerical_features → numeric_typed sample_raw c.
Proof. apply Forall_forall. compute_done. Qed.




(** The clean step on the sample without missing fields. *)
Lemma C1_dropna_row_count_witness :
  isnull_sum_sum sample_clean = 0
  ∧ length (rows (dropna sample_clean)) = length (rows sample_clean).
Proof.
  assert (isnull_sum_sum sample_clean = 0) as H0 by (vm_compute; reflexivity).
  split; [exact H0|].
  destruct (C1_dropna_row_count sample_clean) as (_ & H & _). exact (H H0).
Defined.




(** A run whose primary path is a directory: the load fails and nothing
    follows. *)
Lemma C5_load_failure_stops_the_run_witness :
  main (λ _, Malformed "unreadable") (λ _, "csv") world_with_directory
  = (Ok (),
     set_stdout [Starting; LoadingRawData;
                 ErrorLoading (OSError "Is a directory")] world_with_directory).
Proof.
  destruct (C5_load_failure_stops_the_run
              (λ _, Malformed "unreadable") (λ _, "csv")
              "../penguins_raw.csv" world_with_directory) as [_ H].
  apply H; reflexivity.
Defined.

(** A run without any of the four files. *)
Lemma C6_fallback_paths_witness :
  fs empty_world !! "../penguins_raw.csv" = None
  ∧ main (λ _, Malformed "unreadable") (λ _, "csv") empty_world
    = (Ok (), set_stdout [RawDataNotFound] empty_world).
Proof.
  assert (fs empty_world !! raw_data_path = None) as H0 by reflexivity.
  split; [exact H0|].
  destruct (C6_fallback_paths (λ _, Malformed "unreadable") (λ _, "csv")
              empty_world H0) as (_ & _ & H).
  apply H. intros path _. reflexivity.
Defined.

(** The call on the sample: seven columns in, ten out. *)
Lemma C7_processed_table_frame_witness :
  ∃ (w' : world) (lp : loc) (dfp : DataFrame),
    heap w' !! lp = Some dfp
    ∧ columns dfp = penguin_columns ++ encoded_columns.
Proof.
  destruct (processed_table_typed sample_raw sample_raw_strings
              sample_raw_numbers) as [dfp Hp]; [vm_compute; discriminate|].
  destruct (preprocess_penguins_data_returns 1%positive (world_of sample_raw)
              sample_raw dfp) as (lx & y & lp & w' & Hrun & _);
    [reflexivity|exact Hp|].
  destruct (C7_processed_table_frame 1%positive (world_of sample_raw) w'
              sample_raw lx lp y) as (dfp' & Hl & Hc & _);
    [reflexivity| |exact Hrun|].
  - apply Forall_forall. compute_done.
  - exists w', lp, dfp'. split; [exact Hl|exact Hc].
Defined.


(** The sample is still in its place after the call. *)
Lemma C10_input_table_unchanged_witness :
  heap (preprocess_penguins_data 1%positive (world_of sample_raw)).2 !! 1%positive
  = Some sample_raw.
Proof.
  apply (C10_input_table_unchanged 1%positive (world_of sample_raw)).
  reflexivity.
Defined.

(** The encoder on the species of the sample: Adelie 0, Chinstrap 1,
    Gentoo 2, whatever the order of the rows. *)
Example species_codes :
  LabelEncoder.fit_transform [Str "Gentoo"; Str "Adelie"; Str "Chinstrap"; Str "Adelie"]
  = Ok [2; 0; 1; 0].
Proof. reflexivity. Qed.

Lemma sample_tagged_strings :
  ∀ c, c ∈ categorical_columns → string_typed sample_tagged c.
Proof. apply Forall_forall. compute_done. Qed.

Lemma sample_tagged_numbers :
  ∀ c, c ∈ numerical_features → numeric_typed sample_tagged c.
Proof. apply Forall_forall. compute_done. Qed.

(** C7, as stated, does not hold for every input table: a table that
    already has a column named species_encoded comes back with only two
    columns more, and with that column overwritten by the codes. *)
Lemma C7_existing_column_overwritten :
  ∃ (w' : world) (lx lp : loc) (y : Series) (dfp : DataFrame),
    heap (world_of sample_tagged) !! 1%positive = Some sample_tagged
    ∧ preprocess_penguins_data 1%positive (world_of sample_tagged)
      = (Ok (lx, y, lp), w')
    ∧ heap w' !! lp = Some dfp
    ∧ columns dfp ≠ columns sample_tagged ++ encoded_columns
    ∧ length (columns dfp) = length (columns sample_tagged) + 2
    ∧ getitem dfp "species_encoded"
      ≠ getitem (dropna sample_tagged) "species_encoded".
Proof.
  destruct (processed_table_typed sample_tagged sample_tagged_strings
              sample_tagged_numbers) as [dfp Hp]; [vm_compute; discriminate|].
  destruct (preprocess_penguins_data_returns 1%positive (world_of sample_tagged)
              sample_tagged dfp) as (lx & y & lp & w' & Hrun & Hlp);
    [reflexivity|exact Hp|].
  exists w', lx, lp, y, dfp. split; [reflexivity|]. split; [exact Hrun|].
  split; [exact Hlp|].
  destruct (processed_table_inv _ _ Hp) as (Hc & _ & _ & _ & Henc & _).
  assert (columns dfp
          = penguin_columns
            ++ ["species_encoded"; "island_encoded"; "sex_encoded"]) as Hcols.
  { rewrite Hc. vm_compute. reflexivity. }
  split; [|split].
  - rewrite Hcols. vm_compute. discriminate.
  - rewrite Hcols. reflexivity.
  - destruct (Henc "species_encoded") as [codes ->]; [compute_done|].
    assert (getitem (dropna sample_tagged) "species_encoded"
            = Ok [Str "unknown"; Str "unknown"; Str "unknown"]) as ->
      by reflexivity.
    destruct codes as [|n codes]; simpl; discriminate.
Qed.





(** * Further properties of the script *)

(** ** The call, forwards *)

Section Forward.

Lemma processed_table_steps df dfp :
  processed_table df = Ok dfp →
  ∃ d1 d2 d3,
    encode_column "species" "species_encoded" (dropna df) = Ok d1
    ∧ encode_column "island" "island_encoded" d1 = Ok d2
    ∧ encode_column "sex" "sex_encoded" d2 = Ok d3
    ∧ scale_step d3 = Ok dfp.
Proof.
  unfold processed_table, encode_step.
  destruct (encode_column "species" _ (dropna df)) as [d1|] eqn:E1; [|done].
  cbn [mbind result_bind].
  destruct (encode_column "island" _ d1) as [d2|] eqn:E2; [|done].
  cbn [mbind result_bind].
  destruct (encode_column "sex" _ d2) as [d3|] eqn:E3; [|done].
  cbn [mbind result_bind]. intros E4. by exists d1, d2, d3.
Qed.

(** The call on a table that can be processed, as an equation: the three
    objects it creates, and the five lines it prints. *)
Lemma preprocess_penguins_data_exact (l : loc) (w : world) df dfp X y :
  heap w !! l = Some df →
  processed_table df = Ok dfp →
  getitem_list dfp feature_columns = Ok X →
  getitem dfp "species_encoded" = Ok y →
  preprocess_penguins_data l w =
    (Ok (fresh (dom (<[fresh (dom (<[fresh (dom (heap w)) := df]> (heap w)))
                       := dfp]> (<[fresh (dom (heap w)) := df]> (heap w)))),
         y,
         fresh (dom (<[fresh (dom (heap w)) := df]> (heap w)))),
     {| heap :=
          <[fresh (dom (<[fresh (dom (<[fresh (dom (heap w)) := df]> (heap w)))
                          := dfp]> (<[fresh (dom (heap w)) := df]> (heap w))))
            := X]>
            (<[fresh (dom (<[fresh (dom (heap w)) := df]> (heap w))) := dfp]>
               (<[fresh (dom (heap w)) := df]> (heap w)));
        fs := fs w;
        stdout := stdout w
                  ++ [MissingBefore (isnull_sum_sum df);
                      MissingAfter (isnull_sum_sum (dropna df));
                      FinalShape (shape dfp);
                      FeatureMatrixShape (shape X);
                      TargetDistribution y] |}).
Proof.
  intros Hl Hp HX Hy.
  destruct (processed_table_steps _ _ Hp) as (d1 & d2 & d3 & E1 & E2 & E3 & E4).
  unfold preprocess_penguins_data.
  rewrite bind_eq, (derive_eq _ _ _ df Hl).
  set (lc := fresh (dom (heap w))). cbn beta iota.
  rewrite bind_eq, (read_eq _ _ _ df) by apply lookup_insert_eq.
  rewrite bind_eq. cbn [print]. cbn beta iota.
  rewrite bind_eq, (derive_eq _ _ _ df) by apply lookup_insert_eq.
  cbn [set_stdout set_heap heap fs stdout].
  set (h1 := <[lc:=df]> (heap w)). set (lp := fresh (dom h1)).
  rewrite bind_eq, (read_eq _ _ _ (dropna df)) by apply lookup_insert_eq.
  rewrite bind_eq. cbn [print]. cbn beta iota.
  cbn [set_stdout set_heap heap fs stdout].
  rewrite bind_eq, (update_eq _ _ _ (dropna df)) by apply lookup_insert_eq.
  rewrite E1. cbn [set_stdout set_heap heap fs stdout]. rewrite insert_insert_eq.
  rewrite bind_eq, (update_eq _ _ _ d1) by apply lookup_insert_eq.
  rewrite E2. cbn [set_stdout set_heap heap fs stdout]. rewrite insert_insert_eq.
  rewrite bind_eq, (update_eq _ _ _ d2) by apply lookup_insert_eq.
  rewrite E3. cbn [set_stdout set_heap heap fs stdout]. rewrite insert_insert_eq.
  rewrite bind_eq, (update_eq _ _ _ d3) by apply lookup_insert_eq.
  rewrite E4. cbn [set_stdout set_heap heap fs stdout]. rewrite insert_insert_eq.
  rewrite bind_eq, (derive_eq _ _ _ dfp) by apply lookup_insert_eq.
  rewrite HX. cbn [set_stdout set_heap heap fs stdout].
  pose proof (fresh_heap (<[lp:=dfp]> h1)) as Hx.
  set (lx := fresh (dom (<[lp:=dfp]> h1))) in *.
  assert (lx ≠ lp) as Hxp.
  { apply lookup_insert_None in Hx as [? ?]. done. }
  rewrite bind_eq, (read_result_eq _ _ _ dfp)
    by (simpl; by rewrite lookup_insert_ne, lookup_insert_eq).
  rewrite Hy.
  rewrite bind_eq, (read_eq _ _ _ dfp)
    by (simpl; by rewrite lookup_insert_ne, lookup_insert_eq).
  rewrite bind_eq. cbn [print]. cbn beta iota.
  rewrite bind_eq, (read_eq _ _ _ X) by (simpl; apply lookup_insert_eq).
  rewrite bind_eq. cbn [print]. cbn beta iota.
  rewrite bind_eq. cbn [print]. cbn beta iota.
  cbn [set_stdout set_heap heap fs stdout].
  unfold mret, M_ret. do 2 f_equal.
  by rewrite <- !app_assoc.
Qed.

(** A call on a table that cannot be processed raises what
    [processed_table] raises. *)
Lemma preprocess_penguins_data_raises (l : loc) (w : world) df e :
  heap w !! l = Some df →
  processed_table df = Raise e →
  ∃ w', preprocess_penguins_data l w = (Raise e, w')
    ∧ fs w' = fs w ∧ heap w ⊆ heap w'.
Proof.
  intros Hl Hp. destruct (preprocess_penguins_data l w) as [r w'] eqn:E.
  destruct (preprocess_penguins_data_run l w r w' E) as (Hfs & Hsub & Hr).
  destruct r as [[[lx y] lp]|e'].
  - destruct Hr as (df0 & dfp & X & H1 & H2 & _). congruence.
  - rewrite Hl in Hr. destruct Hr as [Hr|(dfp & H1 & _)]; [|congruence].
    assert (e' = e) as -> by congruence. by exists w'.
Qed.

(** The same with what is printed before the exception: the two counts
    of missing values and nothing else. *)
Lemma preprocess_penguins_data_raises_exact (l : loc) (w : world) df e :
  heap w !! l = Some df →
  processed_table df = Raise e →
  ∃ h',
    preprocess_penguins_data l w =
      (Raise e,
       {| heap := h'; fs := fs w;
          stdout := stdout w ++ [MissingBefore (isnull_sum_sum df);
                                 MissingAfter (isnull_sum_sum (dropna df))] |})
    ∧ heap w ⊆ h'.
Proof.
  intros Hl Hp.
  assert (∃ h',
    preprocess_penguins_data l w =
      (Raise e,
       {| heap := h'; fs := fs w;
          stdout := stdout w ++ [MissingBefore (isnull_sum_sum df);
                                 MissingAfter (isnull_sum_sum (dropna df))] |}))
    as [h' Hrun].
  { unfold preprocess_penguins_data.
    rewrite bind_eq, (derive_eq _ _ _ df Hl).
    set (lc := fresh (dom (heap w))). cbn beta iota.
    rewrite bind_eq, (read_eq _ _ _ df) by apply lookup_insert_eq.
    rewrite bind_eq. cbn [print]. cbn beta iota.
    rewrite bind_eq, (derive_eq _ _ _ df) by apply lookup_insert_eq.
    cbn [set_stdout set_heap heap fs stdout].
    set (h1 := <[lc:=df]> (heap w)). set (lp := fresh (dom h1)).
    rewrite bind_eq, (read_eq _ _ _ (dropna df)) by apply lookup_insert_eq.
    rewrite bind_eq. cbn [print]. cbn beta iota.
    cbn [set_stdout set_heap heap fs stdout].
    rewrite <- app_assoc. cbn [app].
    unfold processed_table, encode_step in Hp.
    rewrite bind_eq, (update_eq _ _ _ (dropna df)) by apply lookup_insert_eq.
    destruct (encode_column "species" _ (dropna df)) as [d1|e1] eqn:E1; cycle 1.
    { injection Hp as ->. by eexists. }
    cbn [mbind result_bind] in Hp.
    cbn [set_stdout set_heap heap fs stdout]. rewrite insert_insert_eq.
    rewrite bind_eq, (update_eq _ _ _ d1) by apply lookup_insert_eq.
    destruct (encode_column "island" _ d1) as [d2|e2] eqn:E2; cycle 1.
    { injection Hp as ->. by eexists. }
    cbn [mbind result_bind] in Hp.
    cbn [set_stdout set_heap heap fs stdout]. rewrite insert_insert_eq.
    rewrite bind_eq, (update_eq _ _ _ d2) by apply lookup_insert_eq.
    destruct (encode_column "sex" _ d2) as [d3|e3] eqn:E3; cycle 1.
    { injection Hp as ->. by eexists. }
    cbn [mbind result_bind] in Hp.
    cbn [set_stdout set_heap heap fs stdout]. rewrite insert_insert_eq.
    rewrite bind_eq, (update_eq _ _ _ d3) by apply lookup_insert_eq.
    rewrite Hp. by eexists. }
  exists h'. split; [exact Hrun|].
  by destruct (preprocess_penguins_data_run l w _ _ Hrun) as (_ & Hsub & _).
Qed.

End Forward.

(** ** What the call returns and reports *)

Lemma processed_table_features df dfp :
  processed_table df = Ok dfp →
  ∃ X y, getitem_list dfp feature_columns = Ok X
    ∧ getitem dfp "species_encoded" = Ok y.
Proof.
  intros Hp.
  destruct (processed_table_inv _ _ Hp) as (_ & _ & _ & _ & Henc & Hnum).
  destruct (getitem_list_Ok dfp feature_columns) as [X HX].
  { intros c Hc. unfold feature_columns in Hc.
    apply elem_of_app in Hc as [Hc|Hc].
    - destruct (Hnum c Hc) as (xs & _ & Hg). by apply getitem_Ok_columns in Hg.
    - destruct (Henc c) as (codes & Hg); [|by apply getitem_Ok_columns in Hg].
      unfold encoded_columns; simpl. set_solver. }
  destruct (Henc "species_encoded") as [codes Hy].
  { unfold encoded_columns; simpl. set_solver. }
  eauto.
Qed.

(** X1 (source lines 49-58): when the call returns, its first result is
    a new table object, distinct from the processed table, whose columns
    are the four measurements, island_encoded and sex_encoded, in this
    order, with the cells and the row count of the processed table; its
    second result is the species_encoded column of the processed table,
    one code per row.  The species and its codes are not among the
    features. *)
Theorem preprocess_returns_features
    (l : loc) (w w' : world) (df : DataFrame) (lx lp : loc) (y : Series) :
  heap w !! l = Some df →
  preprocess_penguins_data l w = (Ok (lx, y, lp), w') →
  ∃ dfp X,
    heap w' !! lp = Some dfp
    ∧ heap w' !! lx = Some X
    ∧ lx ≠ lp
    ∧ heap w !! lx = None
    ∧ heap w !! lp = None
    ∧ columns X = ["bill_length_mm"; "bill_depth_mm"; "flipper_length_mm";
                   "body_mass_g"; "island_encoded"; "sex_encoded"]
    ∧ length (rows X) = length (rows dfp)
    ∧ (∀ c, c ∈ columns X → getitem X c = getitem dfp c)
    ∧ getitem dfp "species_encoded" = Ok y
    ∧ length y = length (rows dfp).
Proof.
  intros Hl Hrun.
  destruct (preprocess_penguins_data_run _ _ _ _ Hrun) as (_ & _ & Hr).
  destruct Hr as (df0 & dfp & X & H1 & Hp & Hlp0 & Hlp & Hlx & HX & Hy).
  assert (df0 = df) as -> by congruence.
  pose proof (preprocess_penguins_data_exact l w df dfp X y Hl Hp HX Hy) as Hex.
  rewrite Hrun in Hex. injection Hex as Elx Elp Ew.
  exists dfp, X.
  destruct (getitem_list_inv _ _ _ HX) as (_ & HcX & HrX).
  pose proof (fresh_heap (<[lp:=dfp]> (<[fresh (dom (heap w)) := df]> (heap w))))
    as Hfresh.
  rewrite <- Elp in Elx. rewrite <- Elx in Hfresh.
  apply lookup_insert_None in Hfresh as [Hfresh Hne].
  apply lookup_insert_None in Hfresh as [Hfresh _].
  repeat split; try done.
  - by rewrite HrX, length_map.
  - intros c Hc. rewrite HcX in Hc. by apply (getitem_of_getitem_list _ _ _ _ HX).
  - by apply getitem_length in Hy.
Qed.

(** X2 (source lines 29-33, 54-56): when the call returns it has
    printed five lines and touched no file: the number of missing cells
    of the input, then zero, then the shape of the processed table (the
    rows kept by the drop), then the shape of the feature table (as many
    rows, six columns), then the distribution of the species codes. *)
Theorem preprocess_report
    (l : loc) (w w' : world) (df : DataFrame) (lx lp : loc) (y : Series) :
  heap w !! l = Some df →
  preprocess_penguins_data l w = (Ok (lx, y, lp), w') →
  fs w' = fs w
  ∧ ∃ dfp,
      heap w' !! lp = Some dfp
      ∧ stdout w' =
          stdout w
          ++ [MissingBefore (isnull_sum_sum df);
              MissingAfter 0;
              FinalShape (length (rows (dropna df)), length (columns dfp));
              FeatureMatrixShape (length (rows (dropna df)), 6);
              TargetDistribution y].
Proof.
  intros Hl Hrun.
  destruct (preprocess_penguins_data_run _ _ _ _ Hrun) as (Hfs & _ & Hr).
  destruct Hr as (df0 & dfp & X & H1 & Hp & Hlp0 & Hlp & Hlx & HX & Hy).
  assert (df0 = df) as -> by congruence.
  pose proof (preprocess_penguins_data_exact l w df dfp X y Hl Hp HX Hy) as Hex.
  rewrite Hrun in Hex. injection Hex as _ _ Ew.
  split; [done|]. exists dfp. split; [done|].
  destruct (getitem_list_inv _ _ _ HX) as (_ & HcX & HrX).
  destruct (processed_table_inv _ _ Hp) as (_ & Hrows & _).
  rewrite Ew. cbn [stdout]. unfold shape.
  rewrite (clean_isnull _ (dropna_clean df)), HcX, HrX, length_map, Hrows.
  done.
Qed.

(** ** Saving *)

(** [save_processed_data], case by case. *)
Lemma save_processed_data_eq
    (to_csv : DataFrame → string) (l : loc) (path : string) (w : world) :
  save_processed_data to_csv l path w =
    match heap w !! l with
    | None =>
        (Ok false,
         set_stdout
           (stdout w
            ++ [ErrorSaving (AttributeError "'NoneType' object has no attribute")])
           w)
    | Some df =>
        match fs w !! path with
        | Some Dir =>
            (Ok false,
             set_stdout (stdout w ++ [ErrorSaving (OSError "Is a directory")]) w)
        | _ =>
            (Ok true,
             set_stdout (stdout w ++ [SavedTo path])
               (set_fs (<[path := File (to_csv df)]> (fs w)) w))
        end
    end.
Proof.
  unfold save_processed_data. rewrite try_except_eq, bind_eq.
  unfold df_to_csv. rewrite bind_eq. unfold deref.
  destruct (heap w !! l) as [df|]; [|by rewrite bind_eq, print_eq].
  unfold write_file.
  destruct (fs w !! path) as [[content|]|]; by rewrite bind_eq, print_eq.
Qed.


(** ** Whole runs *)

Section Runs.

Context (parse_csv : string → parsed) (to_csv : DataFrame → string).

(** The run up to the call of [preprocess_penguins_data], when the file
    can be read. *)
Lemma run_pipeline_loaded (path content : string) (df : DataFrame) (w : world) :
  fs w !! path = Some (File content) →
  parse_csv content = Parsed df →
  run_pipeline parse_csv to_csv path w =
    match preprocess_penguins_data (fresh (dom (heap w)))
            {| heap := <[fresh (dom (heap w)) := df]> (heap w);
               fs := fs w;
               stdout := stdout w ++ [Starting; LoadingRawData;
                                      DataLoaded (shape df); Preprocessing] |}
    with
    | (Raise e, w3) => (Raise e, w3)
    | (Ok (X, y, df_processed), w3) =>
        (print Saving;;
         save_processed_data to_csv df_processed processed_data_path;;
         print Completed;;
         print (AvailableAt processed_data_path);;
         shX ← read X shape;
         print (FeaturesShape shX);;
         print (TargetShape (length y))) w3
    end.
Proof.
  intros Hfile Hparse. unfold run_pipeline.
  rewrite bind_eq, print_eq. rewrite bind_eq, print_eq. rewrite bind_eq.
  pose proof (load_data_cases parse_csv path
    (set_stdout (stdout (set_stdout (stdout w ++ [Starting]) w)
                 ++ [LoadingRawData])
       (set_stdout (stdout w ++ [Starting]) w))) as Hload.
  cbn [fs heap stdout set_stdout set_heap] in Hload |- *.
  rewrite Hfile, Hparse in Hload. rewrite Hload.
  rewrite bind_eq, print_eq. cbn [fs heap stdout set_stdout set_heap].
  rewrite bind_eq. rewrite <- !app_assoc. cbn [app].
  destruct (preprocess_penguins_data _ _) as [[[[X y] lp]|e] w3]; done.
Qed.

(** A run on a file that can be read and processed. *)
Lemma run_pipeline_processed
    (path content : string) (df dfp X : DataFrame) (y : Series) (w : world) :
  fs w !! path = Some (File content) →
  parse_csv content = Parsed df →
  processed_table df = Ok dfp →
  getitem_list dfp feature_columns = Ok X →
  getitem dfp "species_encoded" = Ok y →
  ∃ w',
    run_pipeline parse_csv to_csv path w = (Ok (), w')
    ∧ heap w ⊆ heap w'
    ∧ fs w' = match fs w !! processed_data_path with
              | Some Dir => fs w
              | _ => <[processed_data_path := File (to_csv dfp)]> (fs w)
              end
    ∧ stdout w' =
        stdout w
        ++ [Starting; LoadingRawData; DataLoaded (shape df); Preprocessing;
            MissingBefore (isnull_sum_sum df);
            MissingAfter (isnull_sum_sum (dropna df));
            FinalShape (shape dfp); FeatureMatrixShape (shape X);
            TargetDistribution y;
            Saving;
            match fs w !! processed_data_path with
            | Some Dir => ErrorSaving (OSError "Is a directory")
            | _ => SavedTo processed_data_path
            end;
            Completed; AvailableAt processed_data_path;
            FeaturesShape (shape X); TargetShape (length y)].
Proof.
  intros Hfile Hparse Hp HX Hy.
  rewrite (run_pipeline_loaded path content df w Hfile Hparse).
  pose proof (fresh_heap (heap w)) as Hl0.
  set (l0 := fresh (dom (heap w))) in *.
  set (w2 := {| heap := <[l0:=df]> (heap w); fs := fs w;
                stdout := stdout w ++ [Starting; LoadingRawData;
                                       DataLoaded (shape df); Preprocessing] |}).
  assert (heap w2 !! l0 = Some df) as Hl by apply lookup_insert_eq.
  pose proof (preprocess_penguins_data_exact l0 w2 df dfp X y Hl Hp HX Hy) as Hex.
  destruct (preprocess_penguins_data_run l0 w2 _ _ Hex) as (_ & Hsub & _).
  rewrite Hex. clear Hex.
  set (lp := fresh (dom (<[fresh (dom (heap w2)) := df]> (heap w2)))) in *.
  set (lx := fresh (dom (<[lp := dfp]> (<[fresh (dom (heap w2)) := df]> (heap w2))))) in *.
  set (h3 := <[lx := X]> (<[lp := dfp]> (<[fresh (dom (heap w2)) := df]> (heap w2)))) in *.
  assert (h3 !! lx = Some X) as HlX by apply lookup_insert_eq.
  assert (h3 !! lp = Some dfp) as HlP.
  { unfold h3. rewrite lookup_insert_ne, lookup_insert_eq; [done|].
    pose proof (fresh_heap (<[lp := dfp]> (<[fresh (dom (heap w2)) := df]> (heap w2))))
      as Hf. fold lx in Hf. apply lookup_insert_None in Hf as [_ ?]. done. }
  assert (heap w ⊆ h3) as Hsub3.
  { etrans; [|exact Hsub]. unfold w2; simpl. by apply insert_subseteq. }
  clearbody h3 lx lp.
  rewrite bind_eq, print_eq. rewrite bind_eq, save_processed_data_eq.
  cbn [heap fs stdout set_stdout set_fs]. rewrite HlP.
  change (fs w2) with (fs w).
  change (stdout w2) with (stdout w ++ [Starting; LoadingRawData;
                                        DataLoaded (shape df); Preprocessing]).
  destruct (fs w !! processed_data_path) as [[c|]|] eqn:Eout.
  all: cbv beta iota zeta;
    rewrite bind_eq, print_eq; rewrite bind_eq, print_eq;
    rewrite bind_eq, (read_eq _ _ _ X) by exact HlX;
    rewrite bind_eq, print_eq; rewrite print_eq;
    cbn [heap fs stdout set_stdout set_fs];
    eexists; split; [reflexivity|]; cbn [heap fs stdout];
    split; [exact Hsub3|]; split; [reflexivity|];
    rewrite <- !app_assoc; reflexivity.
Qed.

(** A run on a file that can be read but not processed. *)
Lemma run_pipeline_raises
    (path content : string) (df : DataFrame) (e : exn) (w : world) :
  fs w !! path = Some (File content) →
  parse_csv content = Parsed df →
  processed_table df = Raise e →
  ∃ h',
    run_pipeline parse_csv to_csv path w =
      (Raise e,
       {| heap := h'; fs := fs w;
          stdout := stdout w
                    ++ [Starting; LoadingRawData; DataLoaded (shape df);
                        Preprocessing;
                        MissingBefore (isnull_sum_sum df);
                        MissingAfter (isnull_sum_sum (dropna df))] |})
    ∧ heap w ⊆ h'.
Proof.
  intros Hfile Hparse Hp.
  rewrite (run_pipeline_loaded path content df w Hfile Hparse).
  set (l0 := fresh (dom (heap w))).
  set (w2 := {| heap := <[l0:=df]> (heap w); fs := fs w;
                stdout := stdout w ++ [Starting; LoadingRawData;
                                       DataLoaded (shape df); Preprocessing] |}).
  assert (heap w2 !! l0 = Some df) as Hl by apply lookup_insert_eq.
  destruct (preprocess_penguins_data_raises_exact l0 w2 df e Hl Hp)
    as (h' & Hrun & Hsub).
  rewrite Hrun. exists h'. split.
  - cbn [fs stdout w2]. by rewrite <- app_assoc.
  - etrans; [|exact Hsub]. apply insert_subseteq, fresh_heap.
Qed.

Lemma main_resolved (path : string) (w : world) :
  resolve_raw_data_path w = (Ok (Some path), w) →
  main parse_csv to_csv w = run_pipeline parse_csv to_csv path w.
Proof. intros H. unfold main. by rewrite bind_eq, H. Qed.

(** What any run leaves behind. *)
Lemma run_pipeline_frame (path : string) (w : world) r w' :
  run_pipeline parse_csv to_csv path w = (r, w') →
  heap w ⊆ heap w'
  ∧ (∀ p, p ≠ processed_data_path → fs w' !! p = fs w !! p)
  ∧ stdout w `prefix_of` stdout w'
  ∧ match r with
    | Ok _ => True
    | Raise e =>
        fs w' = fs w
        ∧ ∃ content df,
            fs w !! path = Some (File content)
            ∧ parse_csv content = Parsed df
            ∧ processed_table df = Raise e
    end.
Proof.
  intros Hrun.
  pose proof (load_data_cases parse_csv path
    (set_stdout (stdout w ++ [Starting; LoadingRawData]) w)) as Hload.
  cbn [fs set_stdout] in Hload.
  destruct (fs w !! path) as [[content|]|] eqn:Hfile.
  - destruct (parse_csv content) as [df|msg] eqn:Hparse.
    + clear Hload. destruct (processed_table df) as [dfp|e] eqn:Hp.
      * destruct (processed_table_features _ _ Hp) as (X & y & HX & Hy).
        destruct (run_pipeline_processed path content df dfp X y w
                    Hfile Hparse Hp HX Hy) as (w'' & Hr & Hsub & Hfs & Hout).
        rewrite Hrun in Hr. injection Hr as -> ->.
        split; [done|]. split; [|split; [rewrite Hout; by eexists|done]].
        intros p Hne. rewrite Hfs.
        destruct (fs w !! processed_data_path) as [[c|]|]; try done;
          by rewrite lookup_insert_ne.
      * destruct (run_pipeline_raises path content df e w Hfile Hparse Hp)
          as (h' & Hr & Hsub).
        rewrite Hrun in Hr. injection Hr as -> ->. cbn [heap fs stdout].
        split; [done|]. split; [done|]. split; [by eexists|].
        split; [done|]. by exists content, df.
    + rewrite (run_pipeline_load_fails parse_csv to_csv _ _ _ Hload) in Hrun.
      injection Hrun as <- <-. cbn [heap fs stdout set_stdout].
      split; [done|]. split; [done|]. split; [|done].
      rewrite <- app_assoc. by eexists.
  - rewrite (run_pipeline_load_fails parse_csv to_csv _ _ _ Hload) in Hrun.
    injection Hrun as <- <-. cbn [heap fs stdout set_stdout].
    split; [done|]. split; [done|]. split; [|done].
    rewrite <- app_assoc. by eexists.
  - rewrite (run_pipeline_load_fails parse_csv to_csv _ _ _ Hload) in Hrun.
    injection Hrun as <- <-. cbn [heap fs stdout set_stdout].
    split; [done|]. split; [done|]. split; [|done].
    rewrite <- app_assoc. by eexists.
Qed.

End Runs.

(** ** Loading *)

(** X4 (source lines 6-13): on a path that leads to a file pandas can
    read, [load_data] returns a new table object holding what pandas
    made of the file and prints its shape; it changes no file and no
    object that was there. *)
Theorem load_data_loads
    (parse_csv : string → parsed) (path content : string) (df : DataFrame)
    (w : world) :
  fs w !! path = Some (File content) →
  parse_csv content = Parsed df →
  ∃ (l : loc) (w' : world),
    load_data parse_csv path w = (Ok (Some l), w')
    ∧ heap w !! l = None
    ∧ heap w' = <[l := df]> (heap w)
    ∧ fs w' = fs w
    ∧ stdout w' = stdout w ++ [DataLoaded (length (rows df), length (columns df))].
Proof.
  intros Hfile Hparse.
  pose proof (load_data_cases parse_csv path w) as H.
  rewrite Hfile, Hparse in H.
  eexists _, _. split; [exact H|].
  split; [apply fresh_heap|]. done.
Qed.

(** ** The path of the raw data *)

Lemma list_find_head_filter {A} (P : A → Prop) `{!∀ x, Decision (P x)}
    (l : list A) :
  snd <$> list_find P l = head (filter P l).
Proof.
  induction l as [|x l IH]; [done|].
  cbn [list_find]. rewrite filter_cons.
  destruct (decide (P x)); [done|].
  rewrite <- IH. by destruct (list_find P l) as [[i y]|].
Qed.

(** X5 (source lines 77-95): the test of the primary path and the loop
    over the alternatives amount to one search: the path the run reads
    from is the first that exists among ../penguins_raw.csv,
    penguins.csv, ../penguins.csv and penguins_raw.csv, and there is
    none exactly when none of the four exists.  The search never raises
    and changes nothing. *)
Theorem resolve_raw_data_path_first (w : world) :
  resolve_raw_data_path w =
    (Ok (head (filter (λ p, is_Some (fs w !! p))
                 ["../penguins_raw.csv"; "penguins.csv"; "../penguins.csv";
                  "penguins_raw.csv"])),
     w).
Proof.
  rewrite resolve_raw_data_path_eq.
  change ["../penguins_raw.csv"; "penguins.csv"; "../penguins.csv";
          "penguins_raw.csv"] with (raw_data_path :: alternative_paths).
  rewrite filter_cons. f_equal. f_equal.
  destruct (fs w !! raw_data_path) as [n|] eqn:E.
  - by destruct (decide (is_Some (Some n))) as [|[]].
  - destruct (decide (is_Some (@None node))) as [[? ?]|]; [done|].
    apply list_find_head_filter.
Qed.

(** ** Whole runs of [main] *)


(** X7 (source lines 110-117): [main] does not look at what
    [save_processed_data] returns.  When the output path is a
    directory, the run on a table that can be processed still returns
    normally and still prints that the pipeline completed and where the
    processed data is available, right after the error of the save; no
    file is written. *)
Theorem main_completes_without_saving
    (parse_csv : string → parsed) (to_csv : DataFrame → string)
    (w : world) (path content : string) (df dfp : DataFrame) :
  resolve_raw_data_path w = (Ok (Some path), w) →
  fs w !! path = Some (File content) →
  parse_csv content = Parsed df →
  processed_table df = Ok dfp →
  fs w !! processed_data_path = Some Dir →
  ∃ (w' : world) (out : list line),
    main parse_csv to_csv w = (Ok (), w')
    ∧ fs w' = fs w
    ∧ stdout w' =
        stdout w ++ out
        ++ [Saving;
            ErrorSaving (OSError "Is a directory");
            Completed; AvailableAt "penguins_processed.csv";
            FeaturesShape (length (rows dfp), 6);
            TargetShape (length (rows dfp))].
Proof.
  intros Hres Hfile Hparse Hp Hout.
  destruct (processed_table_features _ _ Hp) as (X & y & HX & Hy).
  destruct (run_pipeline_processed parse_csv to_csv path content df dfp X y w
              Hfile Hparse Hp HX Hy) as (w' & Hr & _ & Hfs & Hstd).
  rewrite Hout in Hfs, Hstd.
  exists w', [Starting; LoadingRawData; DataLoaded (shape df); Preprocessing;
              MissingBefore (isnull_sum_sum df);
              MissingAfter (isnull_sum_sum (dropna df));
              FinalShape (shape dfp); FeatureMatrixShape (shape X);
              TargetDistribution y].
  rewrite (main_resolved parse_csv to_csv path w Hres).
  split; [exact Hr|]. split; [exact Hfs|].
  rewrite Hstd.
  destruct (getitem_list_inv _ _ _ HX) as (_ & HcX & HrX).
  unfold shape at 4. rewrite HcX, HrX, length_map.
  by rewrite (getitem_length _ _ _ Hy).
Qed.

(** X8 (source lines 106-108): [main] does not guard the call of
    [preprocess_penguins_data].  When the table loaded cannot be
    processed, [main] raises the exception of the processing: the save
    is never reached, no file is written, and the last lines printed
    are the two counts of missing values. *)
Theorem main_propagates_failure
    (parse_csv : string → parsed) (to_csv : DataFrame → string)
    (w : world) (path content : string) (df : DataFrame) (e : exn) :
  resolve_raw_data_path w = (Ok (Some path), w) →
  fs w !! path = Some (File content) →
  parse_csv content = Parsed df →
  processed_table df = Raise e →
  ∃ w' : world,
    main parse_csv to_csv w = (Raise e, w')
    ∧ fs w' = fs w
    ∧ stdout w' =
        stdout w
        ++ [Starting; LoadingRawData; DataLoaded (shape df); Preprocessing;
            MissingBefore (isnull_sum_sum df); MissingAfter 0].
Proof.
  intros Hres Hfile Hparse Hp.
  destruct (run_pipeline_raises parse_csv to_csv path content df e w
              Hfile Hparse Hp) as (h' & Hr & _).
  eexists. rewrite (main_resolved parse_csv to_csv path w Hres).
  split; [exact Hr|]. cbn [fs stdout]. split; [done|].
  by rewrite (clean_isnull _ (dropna_clean df)).
Qed.

(** X9 (source lines 72-117): whatever the files hold and however the
    run ends, [main] changes no file other than penguins_processed.csv,
    leaves every table object that existed as it was, and only adds
    lines to what was printed. *)
Theorem main_frame
    (parse_csv : string → parsed) (to_csv : DataFrame → string)
    (w : world) (r : result unit) (w' : world) :
  main parse_csv to_csv w = (r, w') →
  (∀ p, p ≠ "penguins_processed.csv" → fs w' !! p = fs w !! p)
  ∧ (∀ l t, heap w !! l = Some t → heap w' !! l = Some t)
  ∧ stdout w `prefix_of` stdout w'.
Proof.
  rewrite main_eq. intros Hmain.
  assert (∀ path, run_pipeline parse_csv to_csv path w = (r, w') →
    (∀ p, p ≠ "penguins_processed.csv" → fs w' !! p = fs w !! p)
    ∧ (∀ l t, heap w !! l = Some t → heap w' !! l = Some t)
    ∧ stdout w `prefix_of` stdout w') as Hrun.
  { intros path Hr.
    destruct (run_pipeline_frame parse_csv to_csv path w r w' Hr)
      as (Hsub & Hfs & Hpre & _).
    split; [exact Hfs|]. split; [|exact Hpre].
    intros l t Hl. by eapply lookup_weaken. }
  destruct (fs w !! raw_data_path) as [n|]; [by eapply Hrun|].
  destruct (list_find _ alternative_paths) as [[i q]|]; [by eapply Hrun|].
  injection Hmain as <- <-. cbn [heap fs stdout set_stdout].
  split; [done|]. split; [done|]. by eexists.
Qed.

(** ** The exceptions of the processing *)

Section Raises.

Lemma encode_column_raises src dst df e :
  encode_column src dst df = Raise e →
  match e with KeyError _ | TypeError _ | ValueError _ => True | _ => False end.
Proof.
  unfold encode_column, getitem.
  destruct (decide (src ∈ columns df)); [|by intros [= <-]].
  cbn [mbind result_bind].
  unfold LabelEncoder.fit_transform, LabelEncoder.labels.
  destruct (mapM cell_key _) as [ks|]; [|by intros [= <-]].
  destruct (_ || _); [|by intros [= <-]].
  cbn [mbind result_bind].
  destruct (mapM (LabelEncoder.code _) _) as [codes|]; [|by intros [= <-]].
  cbn [mbind result_bind]. unfold setitem.
  destruct (decide _); [done|by intros [= <-]].
Qed.

Lemma numeric_columns_raises df cs e :
  numeric_columns df cs = Raise e →
  match e with KeyError _ | TypeError _ | ValueError _ => True | _ => False end.
Proof.
  induction cs as [|c cs IH]; [done|]. cbn [numeric_columns].
  unfold numeric_column at 1, getitem.
  destruct (decide (c ∈ columns df)); [|by intros [= <-]].
  cbn [mbind result_bind].
  destruct (mapM cell_num _) as [xs|]; [|by intros [= <-]].
  cbn [mbind result_bind].
  destruct (numeric_columns df cs) as [X|e']; [done|].
  cbn [mbind result_bind]. intros [= <-]. by apply IH.
Qed.

Lemma setitem_list_raises df cs X e :
  setitem_list df cs X = Raise e →
  match e with KeyError _ | TypeError _ | ValueError _ => True | _ => False end.
Proof.
  revert df X. induction cs as [|c cs IH]; intros df [|xs X];
    cbn [setitem_list]; try by intros [= <-].
  unfold setitem. destruct (decide _); [|by intros [= <-]].
  cbn [mbind result_bind]. apply IH.
Qed.

Lemma scale_step_raises df e :
  scale_step df = Raise e →
  match e with KeyError _ | TypeError _ | ValueError _ => True | _ => False end.
Proof.
  unfold scale_step, getitem_list.
  destruct (list_find _ numerical_features) as [[i c]|]; [by intros [= <-]|].
  cbn [mbind result_bind].
  destruct (to_float_array _) as [A|e'] eqn:EA;
    [|intros [= <-]; by apply numeric_columns_raises in EA].
  cbn [mbind result_bind]. unfold StandardScaler.fit_transform.
  destruct (forallb _ A); [|by intros [= <-]].
  cbn [mbind result_bind]. apply setitem_list_raises.
Qed.

Lemma processed_table_raises df e :
  processed_table df = Raise e →
  match e with KeyError _ | TypeError _ | ValueError _ => True | _ => False end.
Proof.
  unfold processed_table, encode_step.
  destruct (encode_column "species" _ (dropna df)) as [d1|e1] eqn:E1;
    [|intros [= <-]; by apply encode_column_raises in E1].
  cbn [mbind result_bind].
  destruct (encode_column "island" _ d1) as [d2|e2] eqn:E2;
    [|intros [= <-]; by apply encode_column_raises in E2].
  cbn [mbind result_bind].
  destruct (encode_column "sex" _ d2) as [d3|e3] eqn:E3;
    [|intros [= <-]; by apply encode_column_raises in E3].
  cbn [mbind result_bind]. apply scale_step_raises.
Qed.

(** The steps on a table without rows. *)
Lemma encode_column_empty src dst df :
  rows df = [] → src ∈ columns df →
  ∃ df', encode_column src dst df = Ok df'
    ∧ rows df' = []
    ∧ ∀ c, c ∈ columns df → c ∈ columns df'.
Proof.
  intros Hrows Hsrc.
  assert (getitem df src = Ok (Str <$> [])) as Hg.
  { unfold getitem. rewrite decide_True by done. by rewrite Hrows. }
  destruct (encode_column_strings src dst df [] Hg) as (codes & df' & E & S & _).
  exists df'. split; [exact E|].
  apply setitem_inv in S as (_ & Hc & Hr). split.
  - by rewrite Hr, Hrows.
  - intros c Hin. rewrite Hc. unfold add_column. case_decide; [done|].
    apply elem_of_app. by left.
Qed.

Lemma numeric_column_empty df c :
  rows df = [] → c ∈ columns df → numeric_column df c = Ok [].
Proof.
  intros Hrows Hc. unfold numeric_column, getitem.
  rewrite decide_True by done. by rewrite Hrows.
Qed.

Lemma scale_step_empty df :
  rows df = [] →
  (∀ c, c ∈ numerical_features → c ∈ columns df) →
  ∃ msg, scale_step df = Raise (ValueError msg).
Proof.
  intros Hrows Hin.
  destruct (getitem_list_Ok df numerical_features Hin) as [X HX].
  unfold scale_step. rewrite HX. cbn [mbind result_bind].
  rewrite (to_float_array_of_getitem_list _ _ _ HX).
  cbn [numerical_features numeric_columns].
  rewrite !numeric_column_empty
    by (try done; apply Hin; unfold numerical_features; set_solver).
  cbn [mbind result_bind]. unfold StandardScaler.fit_transform.
  cbn [forallb]. rewrite bool_decide_eq_false_2 by (intros H; by apply H).
  cbn [andb mbind result_bind]. by eexists.
Qed.

Lemma dropna_all_incomplete df :
  Forall (λ r, row_has_na (columns df) r = true) (rows df) →
  rows (dropna df) = [].
Proof.
  unfold dropna; cbn [rows columns]. intros H.
  induction H as [|r rs Hr _ IH]; [done|].
  rewrite filter_cons, decide_False by (by rewrite Hr). exact IH.
Qed.

Lemma processed_table_no_complete_row df :
  (∀ c, c ∈ categorical_columns ++ numerical_features → c ∈ columns df) →
  Forall (λ r, row_has_na (columns df) r = true) (rows df) →
  ∃ msg, processed_table df = Raise (ValueError msg).
Proof.
  intros Hin Hall. apply dropna_all_incomplete in Hall.
  unfold processed_table, encode_step.
  destruct (encode_column_empty "species" "species_encoded" (dropna df))
    as (d1 & -> & R1 & C1); [done|apply Hin; set_solver|].
  cbn [mbind result_bind].
  destruct (encode_column_empty "island" "island_encoded" d1)
    as (d2 & -> & R2 & C2); [done|apply C1, Hin; set_solver|].
  cbn [mbind result_bind].
  destruct (encode_column_empty "sex" "sex_encoded" d2)
    as (d3 & -> & R3 & C3); [done|apply C2, C1, Hin; set_solver|].
  cbn [mbind result_bind].
  apply scale_step_empty; [done|].
  intros c Hc. apply C3, C2, C1, Hin. set_solver.
Qed.

Lemma processed_table_no_species df :
  "species" ∉ columns df → processed_table df = Raise (KeyError "species").
Proof.
  intros Hn. unfold processed_table, encode_step, encode_column, getitem.
  cbn [dropna columns]. by rewrite decide_False.
Qed.

End Raises.

(** X10 (source lines 72-117): [main] raises only out of the call of
    [preprocess_penguins_data], and then no file has been written: the
    failures of reading and writing files are caught by [load_data] and
    [save_processed_data], and the test on the result of the load keeps
    [None] away from the processing.  The exception is that of a table
    pandas read but the processing refused: a [KeyError], a [TypeError]
    or a [ValueError]. *)
Theorem main_raises_only
    (parse_csv : string → parsed) (to_csv : DataFrame → string)
    (w : world) (e : exn) (w' : world) :
  main parse_csv to_csv w = (Raise e, w') →
  match e with KeyError _ | TypeError _ | ValueError _ => True | _ => False end
  ∧ fs w' = fs w
  ∧ ∃ (path content : string) (df : DataFrame),
      fs w !! path = Some (File content)
      ∧ parse_csv content = Parsed df
      ∧ processed_table df = Raise e.
Proof.
  rewrite main_eq. intros Hmain.
  assert (∀ path, run_pipeline parse_csv to_csv path w = (Raise e, w') →
    match e with KeyError _ | TypeError _ | ValueError _ => True | _ => False end
    ∧ fs w' = fs w
    ∧ ∃ (path content : string) (df : DataFrame),
        fs w !! path = Some (File content)
        ∧ parse_csv content = Parsed df
        ∧ processed_table df = Raise e) as Hrun.
  { intros path Hr.
    destruct (run_pipeline_frame parse_csv to_csv path w _ w' Hr)
      as (_ & _ & _ & Hfs & content & df & Hfile & Hparse & Hp).
    split; [by apply processed_table_raises in Hp|].
    split; [exact Hfs|]. by exists path, content, df. }
  destruct (fs w !! raw_data_path) as [n|]; [by eapply Hrun|].
  destruct (list_find _ alternative_paths) as [[i q]|]; [by eapply Hrun|done].
Qed.

(** ** The call on tables it cannot process *)

(** X11 (source lines 32-47): on a table that has the seven columns but
    no complete row (a table without rows among them) the call raises
    [ValueError]: the drop leaves nothing, the three encodings go
    through on nothing, and the scaler refuses an array without
    samples.  The two counts of missing values have been printed by
    then; no file is touched. *)
Theorem preprocess_without_complete_rows (l : loc) (w : world) (df : DataFrame) :
  heap w !! l = Some df →
  (∀ c, c ∈ ["species"; "island"; "sex"; "bill_length_mm"; "bill_depth_mm";
             "flipper_length_mm"; "body_mass_g"] → c ∈ columns df) →
  Forall (λ r, row_has_na (columns df) r = true) (rows df) →
  ∃ (msg : string) (w' : world),
    preprocess_penguins_data l w = (Raise (ValueError msg), w')
    ∧ fs w' = fs w
    ∧ stdout w' = stdout w ++ [MissingBefore (isnull_sum_sum df);
                               MissingAfter 0].
Proof.
  intros Hl Hin Hall.
  destruct (processed_table_no_complete_row df Hin Hall) as [msg Hp].
  destruct (preprocess_penguins_data_raises_exact l w df _ Hl Hp)
    as (h' & Hrun & _).
  eexists msg, _. split; [exact Hrun|]. cbn [fs stdout]. split; [done|].
  by rewrite (clean_isnull _ (dropna_clean df)).
Qed.

(** X12 (source line 38): on a table without a column named species the
    call raises [KeyError] for that label, at the first encoding,
    whatever else the table holds; the two counts of missing values
    have been printed, and the argument is as it was. *)
Theorem preprocess_without_species (l : loc) (w : world) (df : DataFrame) :
  heap w !! l = Some df →
  "species" ∉ columns df →
  ∃ w' : world,
    preprocess_penguins_data l w = (Raise (KeyError "species"), w')
    ∧ heap w' !! l = Some df
    ∧ fs w' = fs w
    ∧ stdout w' = stdout w ++ [MissingBefore (isnull_sum_sum df);
                               MissingAfter 0].
Proof.
  intros Hl Hn.
  destruct (preprocess_penguins_data_raises_exact l w df _ Hl
              (processed_table_no_species df Hn)) as (h' & Hrun & Hsub).
  eexists. split; [exact Hrun|]. cbn [heap fs stdout].
  split; [by eapply lookup_weaken|]. split; [done|].
  by rewrite (clean_isnull _ (dropna_clean df)).
Qed.

(** X13 (source line 26): called on a variable that holds no table
    (the [None] of a failed load) the call raises [AttributeError] at
    its first statement, before anything is printed or created; the
    test of line 103 is what keeps [main] from it. *)
Theorem preprocess_of_none (l : loc) (w : world) :
  heap w !! l = None →
  ∃ msg : string,
    preprocess_penguins_data l w = (Raise (AttributeError msg), w).
Proof.
  intros Hl. eexists. unfold preprocess_penguins_data.
  rewrite bind_eq. unfold derive. by rewrite deref_None.
Qed.

(** ** The further properties at sample tables and worlds *)

Lemma sample_raw_processed : ∃ dfp, processed_table sample_raw = Ok dfp.
Proof.
  apply (processed_table_typed sample_raw sample_raw_strings sample_raw_numbers).
  vm_compute. discriminate.
Qed.

(** The call on the sample: the features. *)
Lemma preprocess_returns_features_witness :
  ∃ (w' : world) (lx lp : loc) (X : DataFrame),
    heap w' !! lx = Some X
    ∧ lx ≠ lp
    ∧ columns X = ["bill_length_mm"; "bill_depth_mm"; "flipper_length_mm";
                   "body_mass_g"; "island_encoded"; "sex_encoded"].
Proof.
  destruct sample_raw_processed as [dfp Hp].
  destruct (preprocess_penguins_data_returns 1%positive (world_of sample_raw)
              sample_raw dfp) as (lx & y & lp & w' & Hrun & _);
    [reflexivity|exact Hp|].
  destruct (preprocess_returns_features 1%positive (world_of sample_raw) w'
              sample_raw lx lp y) as (dfp' & X & _ & HX & Hne & _ & _ & Hc & _);
    [reflexivity|exact Hrun|].
  exists w', lx, lp, X. split; [exact HX|]. split; [exact Hne|exact Hc].
Defined.

(** The call on the sample: five missing cells before, none after,
    three rows kept. *)
Lemma preprocess_report_witness :
  ∃ (w' : world) (lp : loc) (dfp : DataFrame) (y : Series),
    heap w' !! lp = Some dfp
    ∧ stdout w' =
        [MissingBefore 5; MissingAfter 0;
         FinalShape (3, length (columns dfp));
         FeatureMatrixShape (3, 6);
         TargetDistribution y].
Proof.
  destruct sample_raw_processed as [dfp Hp].
  destruct (preprocess_penguins_data_returns 1%positive (world_of sample_raw)
              sample_raw dfp) as (lx & y & lp & w' & Hrun & _);
    [reflexivity|exact Hp|].
  destruct (preprocess_report 1%positive (world_of sample_raw) w'
              sample_raw lx lp y) as (_ & dfp' & Hl & Hout);
    [reflexivity|exact Hrun|].
  exists w', lp, dfp', y. split; [exact Hl|exact Hout].
Defined.

(** A load of the sample. *)
Lemma load_data_loads_witness :
  ∃ (l : loc) (w' : world),
    load_data (λ _, Parsed sample_raw) "../penguins_raw.csv" world_with_raw_file
    = (Ok (Some l), w')
    ∧ heap w' = {[ l := sample_raw ]}
    ∧ stdout w' = [DataLoaded (4, 7)].
Proof.
  destruct (load_data_loads (λ _, Parsed sample_raw) "../penguins_raw.csv"
              "raw" sample_raw world_with_raw_file)
    as (l & w' & Hload & _ & Hheap & _ & Hout); [reflexivity|reflexivity|].
  exists l, w'. split; [exact Hload|]. split; [exact Hheap|exact Hout].
Defined.


(** A run on the sample with a directory in place of the output. *)
Lemma main_completes_without_saving_witness :
  ∃ w' : world,
    main (λ _, Parsed sample_raw) (λ _, "csv") world_with_output_directory
    = (Ok (), w')
    ∧ fs w' = fs world_with_output_directory.
Proof.
  destruct sample_raw_processed as [dfp Hp].
  destruct (main_completes_without_saving (λ _, Parsed sample_raw) (λ _, "csv")
              world_with_output_directory "../penguins_raw.csv" "raw"
              sample_raw dfp)
    as (w' & out & Hmain & Hfs & _);
    [reflexivity|reflexivity|reflexivity|exact Hp|reflexivity|].
  exists w'. split; [exact Hmain|exact Hfs].
Defined.

Lemma sample_anonymous_no_species : "species" ∉ columns sample_anonymous.
Proof. compute_done. Qed.

(** A run on a table without the species. *)
Lemma main_propagates_failure_witness :
  ∃ w' : world,
    main (λ _, Parsed sample_anonymous) (λ _, "csv") world_with_raw_file
    = (Raise (KeyError "species"), w')
    ∧ fs w' = fs world_with_raw_file.
Proof.
  destruct (main_propagates_failure (λ _, Parsed sample_anonymous) (λ _, "csv")
              world_with_raw_file "../penguins_raw.csv" "raw"
              sample_anonymous (KeyError "species"))
    as (w' & Hmain & Hfs & _);
    [reflexivity|reflexivity|reflexivity
    |exact (processed_table_no_species _ sample_anonymous_no_species)|].
  exists w'. split; [exact Hmain|exact Hfs].
Defined.

(** A run on a file pandas cannot read: the raw file is still there. *)
Lemma main_frame_witness :
  fs (set_stdout [Starting; LoadingRawData;
                  ErrorLoading (ParserError "unreadable")]
        world_with_raw_file) !! "../penguins_raw.csv"
  = fs world_with_raw_file !! "../penguins_raw.csv".
Proof.
  destruct (main_frame (λ _, Malformed "unreadable") (λ _, "csv")
              world_with_raw_file (Ok ())
              (set_stdout [Starting; LoadingRawData;
                           ErrorLoading (ParserError "unreadable")]
                 world_with_raw_file)) as (Hfs & _); [reflexivity|].
  apply Hfs. discriminate.
Defined.

(** The exception of a run on a table without the species. *)
Lemma main_raises_only_witness :
  ∃ w' : world,
    main (λ _, Parsed sample_anonymous) (λ _, "csv") world_with_raw_file
    = (Raise (KeyError "species"), w')
    ∧ fs w' = fs world_with_raw_file.
Proof.
  destruct (run_pipeline_raises (λ _, Parsed sample_anonymous) (λ _, "csv")
              "../penguins_raw.csv" "raw" sample_anonymous (KeyError "species")
              world_with_raw_file)
    as (h' & Hrun & _);
    [reflexivity|reflexivity
    |exact (processed_table_no_species _ sample_anonymous_no_species)|].
  rewrite <- (main_resolved (λ _, Parsed sample_anonymous) (λ _, "csv")
                "../penguins_raw.csv" world_with_raw_file) in Hrun
    by reflexivity.
  eexists. split; [exact Hrun|].
  by destruct (main_raises_only _ _ _ _ _ Hrun) as (_ & Hfs & _).
Defined.

(** The call on a table without a complete record. *)
Lemma preprocess_without_complete_rows_witness :
  ∃ (msg : string) (w' : world),
    preprocess_penguins_data 1%positive (world_of sample_incomplete)
    = (Raise (ValueError msg), w')
    ∧ stdout w' = [MissingBefore 6; MissingAfter 0].
Proof.
  destruct (preprocess_without_complete_rows 1%positive
              (world_of sample_incomplete) sample_incomplete)
    as (msg & w' & Hrun & _ & Hout).
  - reflexivity.
  - apply Forall_forall. compute_done.
  - compute_done.
  - exists msg, w'. split; [exact Hrun|exact Hout].
Defined.

(** The call on a table without the species. *)
Lemma preprocess_without_species_witness :
  ∃ w' : world,
    preprocess_penguins_data 1%positive (world_of sample_anonymous)
    = (Raise (KeyError "species"), w')
    ∧ heap w' !! 1%positive = Some sample_anonymous.
Proof.
  destruct (preprocess_without_species 1%positive (world_of sample_anonymous)
              sample_anonymous) as (w' & Hrun & Hl & _);
    [reflexivity|exact sample_anonymous_no_species|].
  exists w'. split; [exact Hrun|exact Hl].
Defined.

(** The call on a variable that holds nothing. *)
Lemma preprocess_of_none_witness :
  ∃ msg : string,
    preprocess_penguins_data 1%positive empty_world
    = (Raise (AttributeError msg), empty_world).
Proof. apply preprocess_of_none. reflexivity. Defined.

(** ** What the call needs in order to return *)




